(** * Chat-with-data: the two tools and the agent loop of [app.py]

    A shallow embedding of [src/app.py]: the SQL safety gate
    ([is_query_safe]), the query tool ([query_database]), the ticket tool
    ([create_support_ticket]), the display loop and the agent loop that
    dispatches the model's function calls.

    Conventions.
    - A Python [str] is a Rocq [string]; its characters are the 256 code
      points of [ascii], read as Latin-1.
    - Services the program calls but does not implement (the file system,
      sqlite3, pandas' JSON writer, the secrets store, the HTTP client, the
      generative model, [json.loads]) are fields of a [world] record: each
      call of the source is one application of the matching field, and a
      field that can raise returns a [res].
    - Effects are recorded in a trace of [event]s threaded by the monad [M];
      Python's [try]/[except Exception] is [try_except].
    - [logger] calls write to the process log only; they return nothing and
      change no control flow, and are left out. *)

From Stdlib Require Import ZArith Ascii String DecimalString Lia.
From stdpp Require Import base strings gmap list.

Local Open Scope Z_scope.
#[local] Set Warnings "-register-all".

(** ** Python strings *)

Module PyStr.

(** The character [chr(n)]. *)
Definition chr (n : nat) : string := String (ascii_of_nat n) EmptyString.

(** The double quote, the backslash and the line feed. *)
Definition dquote : string := chr 34.
Definition backslash : string := chr 92.
Definition newline : string := chr 10.

(** [str.lower()] on one code point below 256: the letters A-Z and the
    Latin-1 capitals U+00C0-U+00DE (the multiplication sign U+00D7 is not
    a letter) move up by 32, every other code point is kept. *)
Definition lower_char (c : ascii) : ascii :=
  let n := nat_of_ascii c in
  if ((65 <=? n) && (n <=? 90))%nat then ascii_of_nat (n + 32)
  else if ((192 <=? n) && (n <=? 222) && negb (n =? 215))%nat
       then ascii_of_nat (n + 32)
  else c.

Fixpoint lower (s : string) : string :=
  match s with
  | EmptyString => EmptyString
  | String c rest => String (lower_char c) (lower rest)
  end.

(** [needle in hay]: [needle] occurs in [hay] at some offset. *)
Fixpoint contains (needle hay : string) : bool :=
  String.prefix needle hay
  || match hay with
     | EmptyString => false
     | String _ rest => contains needle rest
     end.

(** [str(n)] for an [int]. *)
Definition str_of_Z (n : Z) : string := NilZero.string_of_int (Z.to_int n).

(** [sep.join(parts)]. *)
Fixpoint join (sep : string) (parts : list string) : string :=
  match parts with
  | [] => EmptyString
  | [p] => p
  | p :: rest => p +:+ sep +:+ join sep rest
  end.

(** The last character of a string, if any. *)
Fixpoint last_char (s : string) : option ascii :=
  match s with
  | EmptyString => None
  | String c EmptyString => Some c
  | String _ rest => last_char rest
  end.

End PyStr.
Import PyStr.

(** ** The safety gate *)

Definition BANNED_SQL_KEYWORDS : list string :=
  [ "delete"; "drop"; "update"; "insert"; "alter";
    "truncate"; "grant"; "revoke"; "shutdown" ].

(** The [for keyword in BANNED_SQL_KEYWORDS] loop of [is_query_safe]: the
    first keyword found in the lower-cased query (the one that is logged). *)
Fixpoint first_banned (keywords : list string) (query_lower : string)
  : option string :=
  match keywords with
  | [] => None
  | keyword :: rest =>
      if contains keyword query_lower then Some keyword
      else first_banned rest query_lower
  end.

Definition is_query_safe (sql_query : string) : bool :=
  let query_lower := lower sql_query in
  match first_banned BANNED_SQL_KEYWORDS query_lower with
  | Some _ => false
  | None => true
  end.

(** ** JSON values and Python's renderings of them *)

(** A value decoded from JSON or given to [json.dumps]. A Python [float]
    is carried by its [repr] (no arithmetic is done on one); a [dict] is
    the list of its items in insertion order, with distinct keys. *)
Inductive json : Type :=
| JNull
| JBool (b : bool)
| JInt (n : Z)
| JFloat (repr : string)
| JStr (s : string)
| JArr (items : list json)
| JObj (items : list (string * json)).

Module Json.

Definition hex_digit (n : nat) : ascii :=
  ascii_of_nat (if (n <? 10)%nat then 48 + n else 87 + n).

(** [json.dumps] on one character of a string ([ensure_ascii=True]):
    the printable ASCII characters other than the quote and the backslash
    stand for themselves. *)
Definition escape_char (c : ascii) : string :=
  let n := nat_of_ascii c in
  if (n =? 34)%nat then backslash +:+ dquote
  else if (n =? 92)%nat then backslash +:+ backslash
  else if (n =? 10)%nat then backslash +:+ "n"
  else if (n =? 13)%nat then backslash +:+ "r"
  else if (n =? 9)%nat then backslash +:+ "t"
  else if (n =? 8)%nat then backslash +:+ "b"
  else if (n =? 12)%nat then backslash +:+ "f"
  else if ((32 <=? n) && (n <=? 126))%nat then String c EmptyString
  else backslash +:+ "u00"
       +:+ String (hex_digit (n / 16)) (String (hex_digit (n mod 16)) EmptyString).

Fixpoint escape (s : string) : string :=
  match s with
  | EmptyString => EmptyString
  | String c rest => escape_char c +:+ escape rest
  end.

Definition quoted (s : string) : string := dquote +:+ escape s +:+ dquote.

(** [json.dumps(v)] with the default separators. *)
Fixpoint dumps (v : json) : string :=
  match v with
  | JNull => "null"
  | JBool true => "true"
  | JBool false => "false"
  | JInt n => str_of_Z n
  | JFloat r =>
      if String.eqb r "inf" then "Infinity"
      else if String.eqb r "-inf" then "-Infinity"
      else if String.eqb r "nan" then "NaN"
      else r
  | JStr s => quoted s
  | JArr items => "[" +:+ join ", " (map dumps items) +:+ "]"
  | JObj items =>
      "{" +:+ join ", " (map (fun kv => quoted (fst kv) +:+ ": " +:+ dumps (snd kv)) items)
          +:+ "}"
  end.

(** [repr(s)] for a [str]: single quotes unless the string holds one and
    no double quote; control characters, U+007F-U+00A0 and U+00AD are
    not printable and are written in hexadecimal. *)
Definition repr_char (quote : ascii) (c : ascii) : string :=
  let n := nat_of_ascii c in
  if Ascii.eqb c quote || (n =? 92)%nat then backslash +:+ String c EmptyString
  else if (n =? 9)%nat then backslash +:+ "t"
  else if (n =? 10)%nat then backslash +:+ "n"
  else if (n =? 13)%nat then backslash +:+ "r"
  else if ((n <? 32) || ((127 <=? n) && (n <=? 160)) || (n =? 173))%nat
       then backslash +:+ "x"
            +:+ String (hex_digit (n / 16)) (String (hex_digit (n mod 16)) EmptyString)
  else String c EmptyString.

Fixpoint repr_chars (quote : ascii) (s : string) : string :=
  match s with
  | EmptyString => EmptyString
  | String c rest => repr_char quote c +:+ repr_chars quote rest
  end.

Definition repr_str (s : string) : string :=
  let quote :=
    if contains "'" s && negb (contains dquote s) then ascii_of_nat 34
    else ascii_of_nat 39 in
  String quote EmptyString +:+ repr_chars quote s +:+ String quote EmptyString.

(** [repr(v)] for a decoded value. *)
Fixpoint py_repr (v : json) : string :=
  match v with
  | JNull => "None"
  | JBool true => "True"
  | JBool false => "False"
  | JInt n => str_of_Z n
  | JFloat r => r
  | JStr s => repr_str s
  | JArr items => "[" +:+ join ", " (map py_repr items) +:+ "]"
  | JObj items =>
      "{" +:+ join ", " (map (fun kv => repr_str (fst kv) +:+ ": " +:+ py_repr (snd kv)) items)
          +:+ "}"
  end.

(** [str(v)], what an f-string field [{v}] expands to. *)
Definition py_str (v : json) : string :=
  match v with
  | JStr s => s
  | _ => py_repr v
  end.

(** [d[key]] on the items of a [dict]. *)
Fixpoint lookup_item (key : string) (items : list (string * json)) : option json :=
  match items with
  | [] => None
  | (k, v) :: rest => if String.eqb k key then Some v else lookup_item key rest
  end.

End Json.
Import Json.

(** ** JSON texts

    The grammar of a JSON text (RFC 8259), on strings: what it takes for
    the string a tool returns to be JSON. *)

Module JsonText.

Definition is_ws (c : ascii) : bool :=
  let n := nat_of_ascii c in
  ((n =? 32) || (n =? 9) || (n =? 10) || (n =? 13))%nat.

Definition is_digit (c : ascii) : bool :=
  let n := nat_of_ascii c in ((48 <=? n) && (n <=? 57))%nat.

Definition is_hex (c : ascii) : bool :=
  let n := nat_of_ascii c in
  (((48 <=? n) && (n <=? 57)) || ((65 <=? n) && (n <=? 70))
   || ((97 <=? n) && (n <=? 102)))%nat.

(** A character that may stand unescaped inside a JSON string. *)
Definition is_plain (c : ascii) : bool :=
  let n := nat_of_ascii c in
  ((32 <=? n) && negb (n =? 34) && negb (n =? 92))%nat.

(** A character that may follow a backslash. *)
Definition is_escape (c : ascii) : bool :=
  let n := nat_of_ascii c in
  ((n =? 34) || (n =? 92) || (n =? 47) || (n =? 98) || (n =? 102)
   || (n =? 110) || (n =? 114) || (n =? 116))%nat.

Fixpoint all_chars (p : ascii -> bool) (s : string) : bool :=
  match s with
  | EmptyString => true
  | String c rest => p c && all_chars p rest
  end.

Definition ws (s : string) : Prop := all_chars is_ws s = true.

(** One or more digits. *)
Definition digits (s : string) : Prop :=
  s <> EmptyString /\ all_chars is_digit s = true.

Inductive number : string -> Prop :=
| number_intro sign int frac exp :
    sign = EmptyString \/ sign = "-" ->
    digits int ->
    (String.length int = 1%nat \/ String.prefix "0" int = false) ->
    frac = EmptyString \/ (exists ds, digits ds /\ frac = "." +:+ ds) ->
    exp = EmptyString
    \/ (exists e sg ds,
           (e = "e" \/ e = "E") /\ (sg = EmptyString \/ sg = "+" \/ sg = "-")
           /\ digits ds /\ exp = e +:+ sg +:+ ds) ->
    number (sign +:+ int +:+ frac +:+ exp).

(** The characters between the quotes of a JSON string. *)
Inductive chars : string -> Prop :=
| chars_nil : chars EmptyString
| chars_plain c s : is_plain c = true -> chars s -> chars (String c s)
| chars_escape c s :
    is_escape c = true -> chars s -> chars (backslash +:+ String c s)
| chars_unicode h1 h2 h3 h4 s :
    is_hex h1 = true -> is_hex h2 = true -> is_hex h3 = true -> is_hex h4 = true ->
    chars s ->
    chars (backslash +:+ "u" +:+ String h1 (String h2 (String h3 (String h4 s)))).

Inductive value : string -> Prop :=
| value_null : value "null"
| value_true : value "true"
| value_false : value "false"
| value_number s : number s -> value s
| value_string s : chars s -> value (dquote +:+ s +:+ dquote)
| value_array_empty w : ws w -> value ("[" +:+ w +:+ "]")
| value_array es : elements es -> value ("[" +:+ es +:+ "]")
| value_object_empty w : ws w -> value ("{" +:+ w +:+ "}")
| value_object ms : members ms -> value ("{" +:+ ms +:+ "}")
with element : string -> Prop :=
| element_intro w1 v w2 : ws w1 -> value v -> ws w2 -> element (w1 +:+ v +:+ w2)
with elements : string -> Prop :=
| elements_one e : element e -> elements e
| elements_more e es : element e -> elements es -> elements (e +:+ "," +:+ es)
with member : string -> Prop :=
| member_intro w1 k w2 e :
    ws w1 -> chars k -> ws w2 -> element e ->
    member (w1 +:+ dquote +:+ k +:+ dquote +:+ w2 +:+ ":" +:+ e)
with members : string -> Prop :=
| members_one m : member m -> members m
| members_more m ms : member m -> members ms -> members (m +:+ "," +:+ ms).

(** A JSON text is one value between optional white space. *)
Definition json_text (s : string) : Prop := element s.

(** The characters a JSON value can end with: a closing bracket or brace,
    a quote, a digit, or the last letter of [null], [true] and [false]. *)
Definition closes_value (c : ascii) : bool :=
  let n := nat_of_ascii c in
  ((n =? 93) || (n =? 125) || (n =? 34) || (n =? 108) || (n =? 101))%nat
  || is_digit c.

End JsonText.

(** ** Exceptions, results and the services of the outside world *)

(** The exceptions the two [except] chains tell apart; every one is a
    subclass of [Exception]. The argument is [str(e)]. *)
Inductive exn : Type :=
| SqliteError (msg : string)          (* sqlite3.Error *)
| RequestException (msg : string)     (* requests.exceptions.RequestException *)
| OtherException (msg : string).      (* any other Exception *)

Definition exn_str (e : exn) : string :=
  match e with
  | SqliteError msg | RequestException msg | OtherException msg => msg
  end.

Inductive res (A : Type) : Type :=
| Ret (a : A)
| Raise (e : exn).
Arguments Ret {A} a.
Arguments Raise {A} e.

(** A value in a row of a result set: [None], [int], [float] (by its
    [repr]), [str] or [bytes]. *)
Inductive sql_value : Type :=
| SqlNull
| SqlInt (n : Z)
| SqlReal (repr : string)
| SqlText (s : string)
| SqlBlob (b : string).

(** A cursor after [cur.execute]: [cur.description] ([None], or one
    7-tuple per column, of which only the name [desc[0]] is set) and what
    [cur.fetchall()] gives. *)
Record cursor : Type := {
  description : option (list (string * unit));
  fetchall : res (list (list sql_value));
}.

(** [pd.DataFrame(results, columns=colnames)]. *)
Record DataFrame : Type := {
  columns : list string;
  data : list (list sql_value);
}.

Definition len (df : DataFrame) : Z := Z.of_nat (length (data df)).

(** [df.head(n)]. *)
Definition head (n : nat) (df : DataFrame) : DataFrame :=
  {| columns := columns df; data := take n (data df) |}.

(** The response of [requests.post]. *)
Record response : Type := {
  status_code : Z;
  text : string;
  response_json : res json;            (* response.json() *)
}.

(** A turn of the session history: [{"role": ..., "parts": ...}]. *)
Record Turn : Type := {
  role : string;
  parts : string;
}.

(** The one content part of a reply of the model: a function call or a
    (possibly empty) text. *)
Inductive part : Type :=
| FunctionCall (name : string) (args : list (string * json))
| TextPart (text : string).

(** The argument of [chat.send_message]. *)
Inductive message : Type :=
| MsgText (text : string)
| MsgFunctionResponse (name : string) (content : json).

(** An entry of a chat session: a turn of the history [start_chat] was
    given, a message sent, or the part the model replied with. *)
Inductive chat_item : Type :=
| Hist (t : Turn)
| Sent (m : message)
| Reply (p : part).

Record world : Type := {
  os_path_exists : string -> bool;
  sqlite3_connect : string -> res unit;
  cursor_execute : string -> res cursor;             (* conn.cursor(); cur.execute(sql) *)
  to_json_records : DataFrame -> res string;         (* df.to_json(orient="records") *)
  (* What Streamlit loads at the first access to [st.secrets]: the keys
     of the secrets file, or the exception it raises when it finds no
     secrets file. *)
  secrets_toml : res (gmap string string);
  requests_post : string -> json -> list (string * string) -> res response;
  json_loads : string -> res json;
  (* The model service on the whole chat so far, and
     [response.candidates[0].content.parts[0]] of what it answers. *)
  generate_content : list chat_item -> res part;
}.

(** [st.secrets] as a mapping: the keys of the secrets file; without a
    file there is no key to find. *)
Definition st_secrets (W : world) : gmap string string :=
  match secrets_toml W with
  | Ret secrets => secrets
  | Raise _ => ∅
  end.

(** What the program does to the outside, in order. *)
Inductive event : Type :=
| EvConnect (database : string)       (* sqlite3.connect returned a connection *)
| EvExecute (sql : string)            (* cur.execute(sql) was called *)
| EvClose                             (* conn.close() *)
| EvPost (url : string) (body : json) (headers : list (string * string))
| EvGenerate (contents : list chat_item)   (* a request to the model service *)
| EvChatMessage (role : string) (body : string)   (* st.chat_message(role) *)
| EvError (body : string).            (* st.error *)

(** ** The monad of the embedding: a trace of events and exceptions *)

Definition M (A : Type) : Type := list event -> res A * list event.

Definition ret {A} (a : A) : M A := fun tr => (Ret a, tr).

Definition bind {A B} (m : M A) (k : A -> M B) : M B :=
  fun tr =>
    match m tr with
    | (Ret a, tr') => k a tr'
    | (Raise e, tr') => (Raise e, tr')
    end.

Definition raise {A} (e : exn) : M A := fun tr => (Raise e, tr).

Definition lift {A} (r : res A) : M A := fun tr => (r, tr).

Definition emit (e : event) : M unit := fun tr => (Ret tt, tr ++ [e]).

(** [try: body except Exception as e: handler(e)]. *)
Definition try_except {A} (body : M A) (handler : exn -> M A) : M A :=
  fun tr =>
    match body tr with
    | (Ret a, tr') => (Ret a, tr')
    | (Raise e, tr') => handler e tr'
    end.

Declare Scope py_scope.
Delimit Scope py_scope with py.
Notation "x <- m ;; k" := (bind m (fun x => k))
  (at level 100, m at next level, right associativity) : py_scope.
Notation "m ;; k" := (bind m (fun _ => k))
  (at level 100, right associativity) : py_scope.
Local Open Scope py_scope.

(** Connections that were opened and not closed. *)
Definition open_connections (tr : list event) : nat :=
  fold_left
    (fun n e =>
       match e with
       | EvConnect _ => S n
       | EvClose => Nat.pred n
       | _ => n
       end)
    tr 0%nat.

Definition is_post (e : event) : bool :=
  match e with EvPost _ _ _ => true | _ => false end.

(** ** The tools *)

Definition DB_FILENAME : string := "movies.db".
Definition TABLE_NAME : string := "movies".

(** Truth value of [cur.description]: [None] and the empty tuple are false. *)
Definition truthy {A} (d : option (list A)) : bool :=
  match d with
  | Some (_ :: _) => true
  | _ => false
  end.

Definition error_payload (msg : string) : json := JObj [("error", JStr msg)].

(** The suffix of a truncated result: [f"\n... (truncated, {n} more rows)"]. *)
Definition truncation_note (n : Z) : string :=
  newline +:+ "... (truncated, " +:+ str_of_Z n +:+ " more rows)".

(** The pieces of the tracker request and of the ticket tool's answers. *)
Definition issues_url (repo_url : string) : string :=
  "https://api.github.com/repos/" +:+ repo_url +:+ "/issues".

Definition request_headers (token : string) : list (string * string) :=
  [ ("Authorization", "Bearer " +:+ token);
    ("Accept", "application/vnd.github.v3+json") ].

Definition request_data (title description : json) : json :=
  JObj [("title", title); ("body", description)].

Definition success_payload (ticket_id ticket_url title : json) : json :=
  JObj [ ("status", JStr "success");
         ("ticket_id", JStr ("GH-" +:+ py_str ticket_id));
         ("ticket_url", ticket_url);
         ("title", title);
         ("message",
          JStr ("Support ticket GH-" +:+ py_str ticket_id
                +:+ " has been successfully created. A human will review it at: "
                +:+ py_str ticket_url)) ].

Definition rejection_payload (status : Z) (body : string) : json :=
  JObj [ ("error",
          JStr ("Failed to create ticket. GitHub API responded with status "
                +:+ str_of_Z status +:+ "."));
         ("details", JStr body) ].

Definition network_error_payload : json :=
  error_payload "Failed to create ticket: A network error occurred.".

(** The [except] chains of the two tools: [except sqlite3.Error] before
    [except Exception], and [except RequestException] before
    [except Exception]. *)
Definition database_error_payload (e : exn) : json :=
  match e with
  | SqliteError msg => error_payload ("An error occurred: " +:+ msg)
  | _ => error_payload "An unexpected error occurred."
  end.

Definition ticket_error_payload (e : exn) : json :=
  match e with
  | RequestException _ => network_error_payload
  | _ => error_payload "An unexpected error occurred while creating the ticket."
  end.

Definition no_results_payload : json :=
  JObj [("message", JStr "Query executed, but no results to return.")].

Section Tools.

Variable W : world.

Definition connect (database : string) : M unit :=
  _ <- lift (sqlite3_connect W database) ;; emit (EvConnect database).

Definition execute (sql : string) : M cursor :=
  emit (EvExecute sql) ;; lift (cursor_execute W sql).

Definition close : M unit := emit EvClose.

Definition to_json (df : DataFrame) : M string := lift (to_json_records W df).

(** Tool 1: the database query tool. *)
Definition query_database (sql_query : string) : M string :=
  if negb (is_query_safe sql_query) then
    ret (dumps (error_payload
                  "Query is not allowed. Only read-only SELECT statements are permitted."))
  else if negb (os_path_exists W DB_FILENAME) then
    ret (dumps (error_payload
                  ("Database file '" +:+ DB_FILENAME +:+ "' not found. Please run setup.py.")))
  else
    try_except
      (connect DB_FILENAME ;;
       cur <- execute sql_query ;;
       results <- lift (fetchall cur) ;;
       if truthy (description cur) then
         let colnames := map fst (default [] (description cur)) in
         close ;;
         let df := {| columns := colnames; data := results |} in
         if 20 <? len df then
           s <- to_json (head 20 df) ;;
           ret (s +:+ truncation_note (len df - 20))
         else
           to_json df
       else
         close ;;
         ret (dumps no_results_payload))
      (fun e => ret (dumps (database_error_payload e))).

(** [key in st.secrets]: the first access loads the secrets, and raises
    when there is no secrets file. *)
Definition has_secret (key : string) : M bool :=
  secrets <- lift (secrets_toml W) ;;
  ret (bool_decide (is_Some (secrets !! key))).

(** [st.secrets[key]]. *)
Definition secret (key : string) : M string :=
  secrets <- lift (secrets_toml W) ;;
  match secrets !! key with
  | Some v => ret v
  | None => raise (OtherException ("KeyError: " +:+ key))
  end.

Definition post (url : string) (body : json) (headers : list (string * string))
  : M response :=
  emit (EvPost url body headers) ;; lift (requests_post W url body headers).

(** [issue_data[key]]: a [KeyError] when the key is absent, a [TypeError]
    when the decoded body is not a [dict]. *)
Definition getitem (v : json) (key : string) : M json :=
  match v with
  | JObj items =>
      match lookup_item key items with
      | Some x => ret x
      | None => raise (OtherException ("KeyError: " +:+ key))
      end
  | _ => raise (OtherException "TypeError")
  end.

(** Tool 2: the support ticket tool. Python does not enforce the [str]
    annotations, so the body is stated for any decoded argument;
    [create_support_ticket] below is the tool on strings. The test of the
    two secrets stands before the [try]: what it raises leaves the tool.
    [or] looks at the repository only when the token is there. *)
Definition create_support_ticket_any (title description : json) : M string :=
  has_token <- has_secret "GITHUB_TOKEN" ;;
  missing <- (if has_token : bool
              then has_repo <- has_secret "GITHUB_REPO" ;; ret (negb has_repo)
              else ret true) ;;
  if missing : bool then
    ret (dumps (error_payload
                  "Failed to create ticket: Server is missing GitHub configuration."))
  else
    try_except
      (token <- secret "GITHUB_TOKEN" ;;
       repo_url <- secret "GITHUB_REPO" ;;
       let api_url := issues_url repo_url in
       let headers := request_headers token in
       let data := request_data title description in
       response <- post api_url data headers ;;
       if status_code response =? 201 then
         issue_data <- lift (response_json response) ;;
         ticket_id <- getitem issue_data "number" ;;
         ticket_url <- getitem issue_data "html_url" ;;
         ret (dumps (success_payload ticket_id ticket_url title))
       else
         ret (dumps (rejection_payload (status_code response) (text response))))
      (fun e => ret (dumps (ticket_error_payload e))).

Definition create_support_ticket (title description : string) : M string :=
  create_support_ticket_any (JStr title) (JStr description).

End Tools.

(** ** The session, the display loop and the agent loop

    Streamlit runs the script once per interaction; the model starts at
    the session history (line 273), for a run whose agent initialisation
    succeeded. *)

Definition greeting : Turn :=
  {| role := "model"; parts := "Hello! How can I help you with the movie data today?" |}.

(** [if "messages" not in st.session_state: ...]. *)
Definition init_session (session : option (list Turn)) : list Turn :=
  match session with
  | Some messages => messages
  | None => [greeting]
  end.

(** The turns the display loop shows, in order. *)
Definition displayed (messages : list Turn) : list Turn :=
  filter (fun msg => role msg ≠ "function") messages.

(** [l[:-1]] and [l[-1]]. *)
Definition all_but_last {A} (l : list A) : list A := take (length l - 1) l.

Definition last_item {A} (l : list A) : res A :=
  match last l with
  | Some x => Ret x
  | None => Raise (OtherException "IndexError")
  end.

(** A call with keyword arguments binds the items of [args] to the
    parameters by name: a [TypeError] unless the keys are exactly the
    parameters. *)
Definition bind_kwargs (params : list string) (args : list (string * json))
  : res (list json) :=
  if bool_decide (length args = length params) then
    match mapM (fun p => lookup_item p args) params with
    | Some values => Ret values
    | None => Raise (OtherException "TypeError")
    end
  else Raise (OtherException "TypeError").

(** The text sent back for a tool that is not in the registry. *)
Definition unknown_tool_message (function_name : string) : message :=
  MsgText ("Error: Unknown tool '" +:+ function_name +:+ "'").

Definition fallback_response : string := "Sorry, I'm not sure how to respond to that.".

Section Agent.

Variable W : world.

Definition display (messages : list Turn) : M unit :=
  foldr (fun msg rest => emit (EvChatMessage (role msg) (parts msg)) ;; rest)
        (ret tt) (displayed messages).

(** [query_database] called with [args]: on an argument that is not a
    [str], [sql_query.lower()] raises an [AttributeError]. *)
Definition call_query_database (args : list (string * json)) : M string :=
  values <- lift (bind_kwargs ["sql_query"] args) ;;
  match values with
  | [JStr sql_query] => query_database W sql_query
  | _ => raise (OtherException "AttributeError")
  end.

Definition call_create_support_ticket (args : list (string * json)) : M string :=
  values <- lift (bind_kwargs ["title"; "description"] args) ;;
  match values with
  | [title; description] => create_support_ticket_any W title description
  | _ => raise (OtherException "TypeError")
  end.

(** The tool registry. *)
Definition tools : gmap string (list (string * json) -> M string) :=
  <["query_database" := call_query_database]>
    (<["create_support_ticket" := call_create_support_ticket]> ∅).

(** [model.start_chat(history=...)]. *)
Definition start_chat (history : list Turn) : list chat_item := map Hist history.

(** [chat.send_message(m, tools=...)]: the request carries the chat so
    far and the new message; the message and the reply join the chat. *)
Definition send_message (chat : list chat_item) (m : message)
  : M (list chat_item * part) :=
  let contents := chat ++ [Sent m] in
  emit (EvGenerate contents) ;;
  response_part <- lift (generate_content W contents) ;;
  ret (contents ++ [Reply response_part], response_part).

(** [while response_part.function_call: ...]. The loop of the source has
    no bound; [fuel] bounds the iterations of the model, and [None] says
    that it ran out. *)
Fixpoint agent_loop (fuel : nat) (chat : list chat_item) (response_part : part)
  : M (option (list chat_item * part)) :=
  match response_part with
  | TextPart _ => ret (Some (chat, response_part))
  | FunctionCall function_name args =>
      match fuel with
      | O => ret None
      | S fuel' =>
          match tools !! function_name with
          | Some tool_function =>
              emit (EvChatMessage "model" ("Running tool: `" +:+ function_name +:+ "`...")) ;;
              function_result <- tool_function args ;;
              content <- lift (json_loads W function_result) ;;
              r <- send_message chat (MsgFunctionResponse function_name content) ;;
              agent_loop fuel' (fst r) (snd r)
          | None =>
              r <- send_message chat (unknown_tool_message function_name) ;;
              agent_loop fuel' (fst r) (snd r)
          end
      end
  end.

Definition final_response (response_part : part) : string :=
  match response_part with
  | TextPart t => if bool_decide (t = EmptyString) then fallback_response else t
  | FunctionCall _ _ => fallback_response
  end.

(** [if prompt := st.chat_input(...)]: the new session history, or [None]
    when the agent loop ran out of fuel. *)
Definition handle_prompt (fuel : nat) (messages : list Turn) (prompt : string)
  : M (option (list Turn)) :=
  let messages := messages ++ [{| role := "user"; parts := prompt |}] in
  emit (EvChatMessage "user" prompt) ;;
  try_except
    (let chat := start_chat (all_but_last messages) in
     new_prompt <- lift (last_item messages) ;;
     r <- send_message chat (MsgText (parts new_prompt)) ;;
     looped <- agent_loop fuel (fst r) (snd r) ;;
     match looped with
     | None => ret None
     | Some (_, response_part) =>
         let final := final_response response_part in
         emit (EvChatMessage "model" final) ;;
         ret (Some (messages ++ [{| role := "model"; parts := final |}]))
     end)
    (fun e =>
       emit (EvError ("An error occurred: " +:+ exn_str e)) ;;
       ret (Some messages)).

(** One run of the script from the session history on. *)
Definition run_script (fuel : nat) (session : option (list Turn)) (prompt : option string)
  : M (option (list Turn)) :=
  let messages := init_session session in
  display messages ;;
  match prompt with
  | Some prompt => handle_prompt fuel messages prompt
  | None => ret (Some messages)
  end.

End Agent.

(** ** Sample worlds for the examples *)

Module Samples.

(** A stand-in for pandas' writer: compact records, [NULL] as [null];
    like pandas it refuses repeated column names. *)
Definition cell_json (v : sql_value) : string :=
  match v with
  | SqlNull => "null"
  | SqlInt n => str_of_Z n
  | SqlReal r => r
  | SqlText s | SqlBlob s => quoted s
  end.

Definition record_json (cols : list string) (row : list sql_value) : string :=
  "{" +:+ join "," (zip_with (fun c v => quoted c +:+ ":" +:+ cell_json v) cols row) +:+ "}".

Definition records_json (df : DataFrame) : res string :=
  if bool_decide (NoDup (columns df)) then
    Ret ("[" +:+ join "," (map (record_json (columns df)) (data df)) +:+ "]")
  else Raise (OtherException "DataFrame columns must be unique for orient='records'.").

(** What the stand-in writer gives for a frame it accepts. *)
Definition written (df : DataFrame) : string :=
  match records_json df with
  | Ret s => s
  | Raise _ => EmptyString
  end.

(** A stand-in for [json.loads]: it decodes the one text given. *)
Definition loads_only (known : string) (v : json) (s : string) : res json :=
  if String.eqb s known then Ret v
  else Raise (OtherException "JSONDecodeError").

Definition no_response : res response := Raise (RequestException "Connection refused").

Definition silent_model (_ : list chat_item) : res part := Ret (TextPart EmptyString).

Definition sample_world
  (db_present : bool) (run : string -> res cursor) (secrets : gmap string string)
  (http : res response) (loads : string -> res json)
  (llm : list chat_item -> res part) : world :=
  {| os_path_exists := fun _ => db_present;
     sqlite3_connect := fun _ => Ret tt;
     cursor_execute := run;
     to_json_records := records_json;
     secrets_toml := Ret secrets;
     requests_post := fun _ _ _ => http;
     json_loads := loads;
     generate_content := llm |}.

(** The rows [1], ..., [n] of a one-column result. *)
Definition count_rows (n : nat) : list (list sql_value) :=
  map (fun i => [SqlInt (Z.of_nat i)]) (seq 1 n).

(** A database that answers every statement with [n] rows of a column
    named [n]. *)
Definition rows_db (n : nat) (_ : string) : res cursor :=
  Ret {| description := Some [("n", tt)]; fetchall := Ret (count_rows n) |}.

(** What the stand-in writer gives for the first 20 of 21 such rows, and
    for 3 such rows. *)
Definition first_20_records : string :=
  written {| columns := ["n"]; data := take 20 (count_rows 21) |}.

Definition three_records : string :=
  written {| columns := ["n"]; data := count_rows 3 |}.

(** A database that runs every statement and has no result set for it. *)
Definition no_result_db (_ : string) : res cursor :=
  Ret {| description := None; fetchall := Ret [] |}.

(** A database that rejects every statement. *)
Definition failing_db (_ : string) : res cursor :=
  Raise (SqliteError "near SELEC: syntax error").

Definition db_world (db_present : bool) (run : string -> res cursor) : world :=
  sample_world db_present run ∅ no_response (fun _ => Ret JNull) silent_model.

Definition github_secrets : gmap string string :=
  <["GITHUB_TOKEN" := "t0ken"]> (<["GITHUB_REPO" := "octo/demo"]> ∅).

Definition ticket_world (secrets : gmap string string) (http : res response) : world :=
  sample_world true no_result_db secrets http (fun _ => Ret JNull) silent_model.

(** The tracker's answer [{"number": 42, "html_url": "http://x/42"}]
    with status 201. *)
Definition created_42 : response :=
  {| status_code := 201;
     text := dumps (JObj [("number", JInt 42); ("html_url", JStr "http://x/42")]);
     response_json := Ret (JObj [("number", JInt 42); ("html_url", JStr "http://x/42")]) |}.

Definition rejected_422 : response :=
  {| status_code := 422;
     text := "Validation Failed";
     response_json := Raise (RequestException "JSONDecodeError") |}.

(** A model that answers with the parts of [script], one per request,
    and with an empty text afterwards. *)
Definition is_reply (c : chat_item) : bool :=
  match c with Reply _ => true | _ => false end.

Definition scripted_model (script : list part) (contents : list chat_item) : res part :=
  Ret (default (TextPart EmptyString) (script !! length (filter is_reply contents))).

(** A world for the agent loop: the database answers with one row, and
    the stand-in for [json.loads] decodes that answer. *)
Definition agent_world (script : list part) : world :=
  sample_world true (rows_db 1) ∅ no_response
    (loads_only (written {| columns := ["n"]; data := count_rows 1 |})
                (JArr [JObj [("n", JInt 1)]]))
    (scripted_model script).

(** The model asks for a tool that does not exist, then answers in
    text; and a model that asks for two such tools first. *)
Definition weather_world : world :=
  agent_world [FunctionCall "get_weather" []; TextPart "I cannot do that."].

Definition two_unknown_world : world :=
  agent_world [FunctionCall "get_weather" []; FunctionCall "get_time" [];
               TextPart "I cannot do that."].

(** The model asks for the count of movies, then answers in text. *)
Definition counting_world : world :=
  agent_world [FunctionCall "query_database"
                 [("sql_query", JStr "SELECT COUNT(*) AS n FROM movies")];
               TextPart "There is 1 movie."].

(** The model asks for a statement that returns 21 rows; the stand-in
    for [json.loads] decodes the three-row answer only. *)
Definition long_result_world : world :=
  sample_world true (rows_db 21) ∅ no_response
    (loads_only three_records
                (JArr [JObj [("n", JInt 1)]; JObj [("n", JInt 2)]; JObj [("n", JInt 3)]]))
    (scripted_model [FunctionCall "query_database" [("sql_query", JStr "SELECT n FROM t")];
                     TextPart "Here are the rows."]).

(** The cursor [rows_db n] answers with. *)
Definition rows_cursor (n : nat) : cursor :=
  {| description := Some [("n", tt)]; fetchall := Ret (count_rows n) |}.

Definition no_result_cursor : cursor :=
  {| description := None; fetchall := Ret [] |}.

(** The session and the trace after the question "How many movies are
    there?" is asked in a fresh session. *)
Definition after_counting : list Turn * list event :=
  match run_script counting_world 5 None (Some "How many movies are there?") [] with
  | (Ret (Some messages), tr) => (messages, tr)
  | _ => ([], [])
  end.

End Samples.

(** ** Notions used to state the properties *)

(** [keyword] occurs in [s] up to the case of letters: some substring of
    [s] has the same lower-cased form as [keyword]. *)
Definition occurs_ignoring_case (keyword s : string) : Prop :=
  exists pre mid post,
    s = pre +:+ mid +:+ post /\ lower mid = lower keyword.

(** The tool's answer is a structured error: a JSON object with an
    [error] field first. *)
Definition is_error_payload (out : string) : Prop :=
  exists msg rest, out = dumps (JObj (("error", JStr msg) :: rest)).

(** The answer of the query tool to a denied statement. *)
Definition denied_answer : string :=
  dumps (error_payload
           "Query is not allowed. Only read-only SELECT statements are permitted.").

(** The statement passes the gate, the database file is there, and the
    engine runs the statement: [cur] is the cursor after [cur.execute] and
    [rows] what [cur.fetchall()] gives. *)
Definition executes (W : world) (sql_query : string) (cur : cursor)
  (rows : list (list sql_value)) : Prop :=
  is_query_safe sql_query = true
  /\ os_path_exists W DB_FILENAME = true
  /\ sqlite3_connect W DB_FILENAME = Ret tt
  /\ cursor_execute W sql_query = Ret cur
  /\ fetchall cur = Ret rows.

(** The frame the query tool builds from a cursor and its rows. *)
Definition frame_of (cur : cursor) (rows : list (list sql_value)) : DataFrame :=
  {| columns := map fst (default [] (description cur)); data := rows |}.

(** The events of a call that connects, runs [sql_query] and closes. *)
Definition query_events (sql_query : string) : list event :=
  [EvConnect DB_FILENAME; EvExecute sql_query; EvClose].

(** A request to the model whose newest message is the corrective text
    for an unknown tool. *)
Definition is_corrective (e : event) : bool :=
  match e with
  | EvGenerate contents =>
      match last contents with
      | Some (Sent (MsgText t)) => String.prefix "Error: Unknown tool '" t
      | _ => false
      end
  | _ => false
  end.

Definition corrective_messages (tr : list event) : nat :=
  length (filter is_corrective tr).

(** An interaction: one run of the script on a prompt, from a session
    history and a trace to the next ones. *)
Definition interaction (W : world) (fuel : nat)
  (before after : list Turn * list event) : Prop :=
  exists prompt,
    run_script W fuel (Some (fst before)) (Some prompt) (snd before)
    = (Ret (Some (fst after)), snd after).

(** A dict whose values are strings, and one of its items as
    [json.dumps] writes it. *)
Definition string_object (fields : list (string * string)) : json :=
  JObj (map (fun kv => (fst kv, JStr (snd kv))) fields).

Definition item_text (kv : string * string) : string :=
  quoted (fst kv) +:+ ": " +:+ quoted (snd kv).

(** The computation is stopped by an exception. *)
Definition raises {A} (out : res A * list event) : Prop :=
  exists e, fst out = Raise e.

(** A specification of a computation on every trace: it only appends
    events, each of them satisfies [P], and a value it returns satisfies
    [Q]. *)
Definition emits {A} (P : event -> Prop) (m : M A) (Q : A -> Prop) : Prop :=
  forall tr,
    exists evs,
      snd (m tr) = tr ++ evs /\ Forall P evs
      /\ forall a, fst (m tr) = Ret a -> Q a.

(** A chat item that carries a function turn: a turn of role "function"
    of the history, or a function response sent in this chat. *)
Definition is_function_item (c : chat_item) : bool :=
  match c with
  | Hist t => bool_decide (role t = "function")
  | Sent (MsgFunctionResponse _ _) => true
  | _ => false
  end.

(** The requests to the model among the events, in order. *)
Definition requests (evs : list event) : list (list chat_item) :=
  omap (fun e => match e with EvGenerate contents => Some contents | _ => None end) evs.

(** A turn appended by the script is a user turn or a model turn. *)
Definition script_turn (t : Turn) : Prop := role t = "user" \/ role t = "model".

(** The events of the two tools. *)
Definition tool_event (e : event) : Prop :=
  match e with
  | EvConnect _ | EvExecute _ | EvClose | EvPost _ _ _ => True
  | _ => False
  end.

(** What the agent loop may do once the chat holds [chat]: every request
    to the model starts with the whole of [chat], in order, and nothing is
    displayed under the role "function". *)
Definition keeps_chat (chat : list chat_item) (e : event) : Prop :=
  match e with
  | EvGenerate contents => chat `prefix_of` contents
  | EvChatMessage r _ => r <> "function"
  | _ => True
  end.

(** The same for a run of the script when [history] is the session so
    far. *)
Definition keeps_history (history : list Turn) (e : event) : Prop :=
  keeps_chat (map Hist history) e.

(** The computation returns a value on every trace. *)
Definition never_raises {A} (m : M A) : Prop :=
  forall tr, exists a, fst (m tr) = Ret a.

(** What [query_database] may do for [sql_query]: it executes no other
    statement, and this one only if the gate lets it through. *)
Definition gated_event (sql_query : string) (e : event) : Prop :=
  match e with
  | EvExecute sql => sql = sql_query /\ is_query_safe sql_query = true
  | _ => True
  end.

(** ** The dashboard: [get_db_aggregates] and the sidebar *)

Definition COUNT_QUERY : string := "SELECT COUNT(*) FROM " +:+ TABLE_NAME.
Definition VOTES_QUERY : string := "SELECT SUM(Vote_Count) FROM " +:+ TABLE_NAME.

(** [cur.fetchone()] on a cursor that was just executed: the first row of
    what [fetchall] would give, [None] when there is no row. *)
Definition fetchone (cur : cursor) : res (option (list sql_value)) :=
  match fetchall cur with
  | Ret [] => Ret None
  | Ret (row :: _) => Ret (Some row)
  | Raise e => Raise e
  end.

(** [row[0]]: a [TypeError] on [None], an [IndexError] on an empty row. *)
Definition first_cell (row : option (list sql_value)) : res sql_value :=
  match row with
  | Some (v :: _) => Ret v
  | Some [] => Raise (OtherException "IndexError")
  | None => Raise (OtherException "TypeError")
  end.

Section Dashboard.

Variable W : world.

(** [conn.execute(sql).fetchone()[0]]. *)
Definition scalar_query (sql : string) : M sql_value :=
  cur <- execute W sql ;;
  row <- lift (fetchone cur) ;;
  lift (first_cell row).

(** The body of [get_db_aggregates]; [None] is [SqlNull]. *)
Definition get_db_aggregates : M (sql_value * sql_value) :=
  if negb (os_path_exists W DB_FILENAME) then ret (SqlNull, SqlNull)
  else
    try_except
      (connect W DB_FILENAME ;;
       total_movies <- scalar_query COUNT_QUERY ;;
       total_votes <- scalar_query VOTES_QUERY ;;
       close ;;
       ret (total_movies, total_votes))
      (fun e => ret (SqlNull, SqlNull)).

End Dashboard.

(** [@st.cache_data] on a function without arguments: the value returned
    by the first call is kept and given back by the later ones, which do
    not run the body. The result is the value and the cache afterwards. *)
Definition cache_data {A} (cache : option A) (body : M A) : M (A * option A) :=
  match cache with
  | Some v => ret (v, cache)
  | None => v <- body ;; ret (v, Some v)
  end.

(** Truth value of a cell: [None], zero and the empty string are false. *)
Definition is_true (v : sql_value) : bool :=
  match v with
  | SqlNull => false
  | SqlInt n => negb (n =? 0)
  | SqlReal r => negb (String.eqb r "0.0" || String.eqb r "-0.0")
  | SqlText s | SqlBlob s => negb (String.eqb s EmptyString)
  end.

(** [f"{n:,}"] for an [int]: a comma before every group of three digits,
    counted from the right. *)
Fixpoint group_digits (s : string) : string :=
  match s with
  | EmptyString => EmptyString
  | String c rest =>
      String c (if ((0 <? String.length rest) && (String.length rest mod 3 =? 0))%nat
                then "," +:+ group_digits rest
                else group_digits rest)
  end.

Definition format_grouped_int (n : Z) : string :=
  if n <? 0 then "-" +:+ group_digits (str_of_Z (- n))
  else group_digits (str_of_Z n).


(** A call of [st.metric]: the label, and the value as it was passed (a
    cell, or a formatted string). *)
Inductive metric_value : Type :=
| Raw (v : sql_value)
| Shown (s : string).

Definition metric : Type := string * metric_value.

(** How a run of the script ends: at its last line, at [st.stop()], with
    an exception nothing catches, or (in the model only) out of fuel. *)
Inductive run_end : Type :=
| Completed
| Stopped
| Crashed (e : exn)
| OutOfFuel.

(** What Streamlit keeps between two runs: the cache of
    [get_db_aggregates] and [st.session_state.messages]. *)
Record app_state : Type := {
  aggregates : option (sql_value * sql_value);
  session : option (list Turn);
}.

Section App.

Variable W : world.

(** [format(x, ",")] for a [float] given by its [repr]; floating point is
    not modelled. *)
Variable format_real : string -> string.

(** [f"{total_votes:,}"]: a [str] has no [","] format ([ValueError]),
    [bytes] and [None] take no format string ([TypeError]). *)
Definition format_grouped (v : sql_value) : res string :=
  match v with
  | SqlInt n => Ret (format_grouped_int n)
  | SqlReal r => Ret (format_real r)
  | SqlText _ => Raise (OtherException "ValueError")
  | SqlNull | SqlBlob _ => Raise (OtherException "TypeError")
  end.

(** [st.metric(label, value)]: the value is an [int], a [float], a [str]
    or [None]; on anything else (here [bytes]) Streamlit raises a
    [TypeError] and shows nothing. *)
Definition st_metric (label : string) (value : metric_value) : res metric :=
  match value with
  | Raw (SqlBlob _) => Raise (OtherException "TypeError")
  | _ => Ret (label, value)
  end.

(** The two metrics of the sidebar: the metrics shown, in order, and
    whether the block ended or raised. *)
Definition sidebar_metrics (total_movies total_votes : sql_value)
  : list metric * res unit :=
  if is_true total_movies then
    match st_metric "Total Movies in DB" (Raw total_movies) with
    | Raise e => ([], Raise e)
    | Ret movies =>
        if is_true total_votes then
          match format_grouped total_votes with
          | Raise e => ([movies], Raise e)
          | Ret s =>
              match st_metric "Total Votes Received" (Shown s) with
              | Raise e => ([movies], Raise e)
              | Ret votes => ([movies; votes], Ret tt)
              end
          end
        else ([movies], Ret tt)
    end
  else ([], Ret tt).

(** The agent initialisation: [st.secrets["GOOGLE_API_KEY"]] raises a
    [KeyError] when the key is missing; the [except] shows the error and
    the script stops. The result says whether the run goes on. *)
Definition initialize_agent : M bool :=
  try_except
    (_ <- secret W "GOOGLE_API_KEY" ;; ret true)
    (fun e =>
       emit (EvError ("Error initializing generative model: " +:+ exn_str e)) ;;
       ret false).

(** One run of the whole script: the sidebar, the agent initialisation,
    then the session history, the display loop and the chat input. *)
Definition run_app (fuel : nat) (state : app_state) (prompt : option string)
  : M (list metric * app_state * run_end) :=
  cached <- cache_data (aggregates state) (get_db_aggregates W) ;;
  let state' := {| aggregates := snd cached; session := session state |} in
  let side := sidebar_metrics (fst (fst cached)) (snd (fst cached)) in
  match snd side with
  | Raise e => ret (fst side, state', Crashed e)
  | Ret _ =>
      ready <- initialize_agent ;;
      if ready : bool then
        ran <- run_script W fuel (session state) prompt ;;
        match ran with
        | Some messages =>
            ret (fst side, {| aggregates := snd cached; session := Some messages |},
                 Completed)
        | None => ret (fst side, state', OutOfFuel)
        end
      else ret (fst side, state', Stopped)
  end.

End App.

(** ** Notions for the further properties *)

(** [c] occurs in [s]. *)
Fixpoint has_char (c : ascii) (s : string) : bool :=
  match s with
  | EmptyString => false
  | String d rest => Ascii.eqb d c || has_char c rest
  end.

(** A character that is in no denylisted keyword, in either case: white
    space, punctuation, digits and the letters b, f, j, m, q, x, y, z. *)
Definition separates (c : ascii) : bool :=
  forallb (fun keyword => negb (has_char (lower_char c) keyword)) BANNED_SQL_KEYWORDS.

(** [query_database] gets past [sqlite3.connect] and then fails before
    its [conn.close()]. *)
Definition fails_after_connect (W : world) (sql_query : string) : bool :=
  is_query_safe sql_query && os_path_exists W DB_FILENAME
  && match sqlite3_connect W DB_FILENAME with
     | Raise _ => false
     | Ret _ =>
         match cursor_execute W sql_query with
         | Raise _ => true
         | Ret cur => match fetchall cur with Raise _ => true | Ret _ => false end
         end
     end.


Definition is_generate (e : event) : bool :=
  match e with EvGenerate _ => true | _ => false end.

Definition is_chat_message (e : event) : bool :=
  match e with EvChatMessage _ _ => true | _ => false end.

Definition is_database_event (e : event) : bool :=
  match e with EvConnect _ | EvExecute _ | EvClose => true | _ => false end.

(** What a run of the app may do to the outside: connect to the database
    file, execute a statement that passes the gate, close, and post to the
    issues of the configured repository with the configured token. What
    it displays and what it asks the model is not constrained here. *)
Definition permitted (W : world) (e : event) : Prop :=
  match e with
  | EvConnect database => database = DB_FILENAME
  | EvExecute sql => is_query_safe sql = true
  | EvPost url _ headers =>
      exists token repo,
        st_secrets W !! "GITHUB_TOKEN" = Some token
        /\ st_secrets W !! "GITHUB_REPO" = Some repo
        /\ url = issues_url repo
        /\ headers = request_headers token
  | _ => True
  end.

(** ** The loading script [load_dataset.py] *)

Module Loader.

Definition dataset_name : string := "Pablinho/movies-dataset".
Definition data_file : string := "9000plus.csv".
Definition db_filename : string := "movies.db".
Definition table_name : string := "movies".

(** What the script calls: [load_dataset(name, data_files=file)] followed
    by [ds['train'].to_pandas()], [sqlite3.connect], and
    [df.to_sql(table, conn, if_exists="replace", index=False)]. *)
Record services : Type := {
  load_frame : string -> string -> res DataFrame;
  connect_db : string -> res unit;
  to_sql_replace : string -> DataFrame -> res unit;
}.

(** What the script does to the outside, in order. *)
Inductive output : Type :=
| Print (line : string)
| PrintHead (df : DataFrame)            (* print(df.head()) *)
| PrintInfo (df : DataFrame)            (* df.info() *)
| Connected (file : string)             (* sqlite3.connect returned *)
| ToSql (table : string) (df : DataFrame)   (* df.to_sql was called *)
| Closed.                               (* conn.close() *)

(** The script has no [try]: the first exception ends it. The result is
    how it ended and what it did until then. *)
Definition main (S : services) : res unit * list output :=
  let out1 := [Print ("Loading " +:+ data_file +:+ " from " +:+ dataset_name +:+ "...")] in
  match load_frame S dataset_name data_file with
  | Raise e => (Raise e, out1)
  | Ret df =>
      let out2 :=
        out1 ++ [ Print (newline +:+ "Successfully loaded dataset!");
                  Print ("Total rows: " +:+ str_of_Z (len df));
                  Print (newline +:+ "DataFrame Head:");
                  PrintHead (head 5 df);
                  Print (newline +:+ "DataFrame Info:");
                  PrintInfo df ] in
      match connect_db S db_filename with
      | Raise e => (Raise e, out2)
      | Ret _ =>
          let out3 := out2 ++ [Connected db_filename; ToSql table_name df] in
          match to_sql_replace S table_name df with
          | Raise e => (Raise e, out3)
          | Ret _ =>
              (Ret tt,
               out3 ++ [ Closed;
                         Print (newline +:+ "Data saved to " +:+ db_filename
                                +:+ " in table '" +:+ table_name +:+ "'") ])
          end
      end
  end.

Definition touches_database (o : output) : bool :=
  match o with
  | Connected _ | ToSql _ _ | Closed => true
  | _ => false
  end.

End Loader.

(** ** Sample worlds for the further properties *)

Module MoreSamples.

(** A database with 9827 movies and 13653592 votes. *)
Definition movies_db (sql : string) : res cursor :=
  if String.eqb sql COUNT_QUERY then
    Ret {| description := Some [("COUNT(*)", tt)]; fetchall := Ret [[SqlInt 9827]] |}
  else
    Ret {| description := Some [("SUM(Vote_Count)", tt)];
           fetchall := Ret [[SqlInt 13653592]] |}.

Definition movies_world (db_present : bool) : world :=
  Samples.db_world db_present movies_db.

(** A database whose second statement fails. *)
Definition half_db (sql : string) : res cursor :=
  if String.eqb sql COUNT_QUERY then
    Ret {| description := Some [("COUNT(*)", tt)]; fetchall := Ret [[SqlInt 9827]] |}
  else Raise (SqliteError "no such column: Vote_Count").

(** No formatting of floats is needed in the examples. *)
Definition no_reals (r : string) : string := r.

Definition fresh : app_state := {| aggregates := None; session := None |}.

(** The tracker answers 201 with a body that has no [number]. *)
Definition created_without_number : response :=
  {| status_code := 201;
     text := dumps (JObj [("id", JInt 7)]);
     response_json := Ret (JObj [("id", JInt 7)]) |}.

(** The model asks for [query_database] with an argument named [query]. *)
Definition misnamed_argument_world : world :=
  Samples.agent_world
    [FunctionCall "query_database" [("query", JStr "SELECT 1")]; TextPart "Done."].

(** A hub that cannot be reached, and one that serves three rows. *)
Definition unreachable_hub : Loader.services :=
  {| Loader.load_frame := fun _ _ => Raise (OtherException "ConnectionError");
     Loader.connect_db := fun _ => Ret tt;
     Loader.to_sql_replace := fun _ _ => Ret tt |}.



(** A model that asks for a tool that does not exist, whatever it is
    sent. *)
Definition stubborn_world : world :=
  Samples.sample_world true (Samples.rows_db 1) ∅ Samples.no_response
    (fun _ => Ret JNull) (fun _ => Ret (FunctionCall "get_weather" [])).

Definition small_hub : Loader.services :=
  {| Loader.load_frame :=
       fun _ _ => Ret {| columns := ["n"]; data := Samples.count_rows 3 |};
     Loader.connect_db := fun _ => Ret tt;
     Loader.to_sql_replace := fun _ _ => Ret tt |}.

End MoreSamples.

(* ================================================================== *)
(** * Properties *)

(** ** Strings *)

Module PyStrFacts.

Lemma str_app_cons c s t : String c s +:+ t = String c (s +:+ t).
Proof. reflexivity. Qed.

Lemma str_app_nil_l s : EmptyString +:+ s = s.
Proof. reflexivity. Qed.

Lemma str_app_nil_r s : s +:+ EmptyString = s.
Proof. induction s as [|c s IH]; [reflexivity|]. by rewrite str_app_cons, IH. Qed.

Lemma str_app_assoc s t u : (s +:+ t) +:+ u = s +:+ t +:+ u.
Proof. induction s as [|c s IH]; [reflexivity|]. by rewrite !str_app_cons, IH. Qed.

Lemma lower_app s t : lower (s +:+ t) = lower s +:+ lower t.
Proof.
  induction s as [|c s IH]; [reflexivity|].
  rewrite str_app_cons. simpl. by rewrite IH, str_app_cons.
Qed.

Lemma prefix_app p s : String.prefix p (p +:+ s) = true.
Proof.
  induction p as [|c p IH]; [by destruct s|].
  rewrite str_app_cons. simpl. destruct (ascii_dec c c); [done|congruence].
Qed.

Lemma contains_prefix needle hay :
  String.prefix needle hay = true -> contains needle hay = true.
Proof. intros H. destruct hay; cbn [contains]; by rewrite H. Qed.

Lemma contains_app pre needle post : contains needle (pre +:+ needle +:+ post) = true.
Proof.
  induction pre as [|c pre IH].
  - rewrite str_app_nil_l. apply contains_prefix, prefix_app.
  - rewrite str_app_cons. simpl. rewrite IH. apply orb_true_r.
Qed.

(** [needle in hay] holds exactly when [hay] splits around [needle]. *)
Lemma prefix_split p s : String.prefix p s = true -> exists post, s = p +:+ post.
Proof.
  revert s. induction p as [|c p IH]; intros s H.
  - by exists s.
  - destruct s as [|d s]; [done|]. simpl in H.
    destruct (ascii_dec c d) as [->|]; [|done].
    destruct (IH _ H) as [post ->]. by exists post.
Qed.

Lemma contains_split needle hay :
  contains needle hay = true -> exists pre post, hay = pre +:+ needle +:+ post.
Proof.
  induction hay as [|c hay IH]; cbn [contains]; intros H.
  - rewrite orb_false_r in H. destruct (prefix_split _ _ H) as [post ->].
    by exists EmptyString, post.
  - apply orb_true_iff in H as [H|H].
    + destruct (prefix_split _ _ H) as [post ->]. by exists EmptyString, post.
    + destruct (IH H) as (pre & post & ->). by exists (String c pre), post.
Qed.

Lemma last_char_cons c s :
  last_char (String c s) = Some (default c (last_char s)).
Proof.
  revert c. induction s as [|d s IH]; intros c; [reflexivity|].
  change (last_char (String c (String d s))) with (last_char (String d s)).
  by rewrite IH.
Qed.

Lemma last_char_app s c t : last_char (s +:+ String c t) = last_char (String c t).
Proof.
  induction s as [|d s IH]; [reflexivity|].
  rewrite str_app_cons, last_char_cons, IH, last_char_cons. done.
Qed.

End PyStrFacts.
Import PyStrFacts.

(** ** The safety gate and the query tool *)

Lemma banned_keywords_are_lower keyword :
  keyword ∈ BANNED_SQL_KEYWORDS -> lower keyword = keyword.
Proof.
  unfold BANNED_SQL_KEYWORDS. intros H.
  repeat (apply elem_of_cons in H as [->|H]; [reflexivity|]).
  by apply elem_of_nil in H.
Qed.

Lemma first_banned_finds keywords keyword query_lower :
  keyword ∈ keywords -> contains keyword query_lower = true ->
  exists found, first_banned keywords query_lower = Some found.
Proof.
  induction keywords as [|k ks IH]; intros Hin Hc.
  - by apply elem_of_nil in Hin.
  - simpl. destruct (contains k query_lower) eqn:E; [by eexists|].
    apply elem_of_cons in Hin as [->|Hin]; [congruence|]. by apply IH.
Qed.

(** The gate denies a query exactly when its lower-cased form contains
    a denylisted keyword. *)
Lemma is_query_safe_false_iff sql_query :
  is_query_safe sql_query = false
  <-> exists keyword,
        keyword ∈ BANNED_SQL_KEYWORDS /\ contains keyword (lower sql_query) = true.
Proof.
  unfold is_query_safe. split.
  - generalize BANNED_SQL_KEYWORDS as ks. induction ks as [|k ks IH]; simpl; [done|].
    destruct (contains k (lower sql_query)) eqn:E.
    + intros _. exists k. split; [apply list_elem_of_here|done].
    + intros H. destruct (IH H) as (kw & Hin & Hc).
      exists kw. split; [by apply list_elem_of_further|done].
  - intros (kw & Hin & Hc).
    destruct (first_banned_finds _ _ _ Hin Hc) as [found ->]. done.
Qed.

Lemma occurrence_is_denied keyword sql_query :
  keyword ∈ BANNED_SQL_KEYWORDS -> occurs_ignoring_case keyword sql_query ->
  is_query_safe sql_query = false.
Proof.
  intros Hin (pre & mid & post & -> & Hmid).
  apply is_query_safe_false_iff. exists keyword. split; [done|].
  rewrite !lower_app, Hmid, (banned_keywords_are_lower _ Hin).
  apply contains_app.
Qed.

(** C1. A query in which a denylisted keyword occurs, in any case of
    letters and anywhere in the string, is denied by [is_query_safe], and
    [query_database] answers it with the structured "not allowed" error in
    every world: whether or not the database file exists, nothing is
    opened, executed or looked up (the trace is unchanged). *)
Theorem banned_keyword_is_denied
  (W : world) (sql_query keyword : string) (tr : list event) :
  keyword ∈ BANNED_SQL_KEYWORDS ->
  occurs_ignoring_case keyword sql_query ->
  is_query_safe sql_query = false
  /\ query_database W sql_query tr = (Ret denied_answer, tr)
  /\ is_error_payload denied_answer.
Proof.
  intros Hin Hocc.
  pose proof (occurrence_is_denied _ _ Hin Hocc) as Hden.
  split; [done|]. split.
  - unfold query_database. by rewrite Hden.
  - by eexists _, [].
Qed.

(** Unfolding the monad on an explicit trace. *)
Ltac run_monad :=
  cbv [bind ret lift emit raise try_except
       connect execute close to_json has_secret secret post getitem].

Lemma query_database_executed W sql_query cur rows tr :
  executes W sql_query cur rows ->
  query_database W sql_query tr
  = if truthy (description cur) then
      let df := frame_of cur rows in
      if 20 <? len df then
        match to_json_records W (head 20 df) with
        | Ret s => (Ret (s +:+ truncation_note (len df - 20)), tr ++ query_events sql_query)
        | Raise e => (Ret (dumps (database_error_payload e)), tr ++ query_events sql_query)
        end
      else
        match to_json_records W df with
        | Ret s => (Ret s, tr ++ query_events sql_query)
        | Raise e => (Ret (dumps (database_error_payload e)), tr ++ query_events sql_query)
        end
    else (Ret (dumps no_results_payload), tr ++ query_events sql_query).
Proof.
  intros (Hsafe & Hfile & Hconn & Hexec & Hfetch).
  unfold query_database. rewrite Hsafe, Hfile. cbn [negb].
  run_monad. rewrite Hconn, Hexec. run_monad. rewrite Hfetch.
  unfold query_events.
  destruct (truthy (description cur)); run_monad; rewrite <- ?(assoc_L (++)); [|done].
  cbn zeta. fold (frame_of cur rows).
  destruct (20 <? len (frame_of cur rows)).
  - by destruct (to_json_records W (head 20 (frame_of cur rows))).
  - by destruct (to_json_records W (frame_of cur rows)).
Qed.

Lemma error_payload_starts msg rest :
  exists tail,
    dumps (JObj (("error", JStr msg) :: rest))
    = "{" +:+ dquote +:+ "error" +:+ dquote +:+ tail.
Proof.
  destruct rest as [|kv rest]; eexists; cbn [dumps map join fst snd];
    unfold quoted; rewrite ?str_app_assoc; reflexivity.
Qed.

Lemma no_results_is_not_an_error : ~ is_error_payload (dumps no_results_payload).
Proof.
  intros (msg & rest & H).
  destruct (error_payload_starts msg rest) as [tail Ht]. rewrite Ht in H.
  vm_compute in H. discriminate H.
Qed.

(** C10. When a statement passes the gate and is executed, and its cursor
    has no description columns ([cur.description] is [None] or empty: no
    result set), [query_database] returns the "no results" message object.
    That answer is neither an empty records list nor an error payload, and
    the writer of records is not consulted for it. *)
Theorem no_result_set_gets_message
  (W : world) (sql_query : string) (cur : cursor)
  (rows : list (list sql_value)) (tr : list event) :
  executes W sql_query cur rows ->
  description cur = None \/ description cur = Some [] ->
  query_database W sql_query tr
  = (Ret (dumps (JObj [("message", JStr "Query executed, but no results to return.")])),
     tr ++ [EvConnect DB_FILENAME; EvExecute sql_query; EvClose])
  /\ dumps (JObj [("message", JStr "Query executed, but no results to return.")]) <> "[]"
  /\ ~ is_error_payload
         (dumps (JObj [("message", JStr "Query executed, but no results to return.")])).
Proof.
  intros Hexec Hdesc.
  rewrite (query_database_executed _ _ _ _ _ Hexec).
  assert (truthy (description cur) = false) as -> by (by destruct Hdesc as [->| ->]).
  split; [done|]. split; [by vm_compute|]. exact no_results_is_not_an_error.
Qed.


(** ** The ticket tool *)

(** The tool once both secrets are there: one POST, then the answer
    depends on what came back. *)
Lemma secrets_of_lookup W key v :
  st_secrets W !! key = Some v ->
  exists secrets, secrets_toml W = Ret secrets /\ secrets !! key = Some v.
Proof.
  unfold st_secrets. destruct (secrets_toml W) as [secrets|e]; [by exists secrets|].
  by rewrite lookup_empty.
Qed.

Lemma is_Some_lookup_true (secrets : gmap string string) key v :
  secrets !! key = Some v -> bool_decide (is_Some (secrets !! key)) = true.
Proof. intros ->. by apply bool_decide_eq_true_2. Qed.

Lemma is_Some_lookup_false (secrets : gmap string string) key :
  secrets !! key = None -> bool_decide (is_Some (secrets !! key)) = false.
Proof. intros ->. apply bool_decide_eq_false_2. by intros [? ?]. Qed.

(** The test of the two secrets, when one of them cannot be found: without
    a secrets file the exception of [st.secrets] leaves the tool, with a
    file the tool answers that the configuration is missing. *)
Lemma create_support_ticket_unconfigured W title description tr :
  st_secrets W !! "GITHUB_TOKEN" = None \/ st_secrets W !! "GITHUB_REPO" = None ->
  create_support_ticket_any W title description tr
  = match secrets_toml W with
    | Raise e => (Raise e, tr)
    | Ret _ =>
        (Ret (dumps (error_payload
                       "Failed to create ticket: Server is missing GitHub configuration.")),
         tr)
    end.
Proof.
  unfold create_support_ticket_any, has_secret, st_secrets. cbv [bind lift ret].
  destruct (secrets_toml W) as [secrets|e]; [|done].
  intros [Htoken|Hrepo].
  - by rewrite (is_Some_lookup_false _ _ Htoken).
  - rewrite (is_Some_lookup_false _ _ Hrepo).
    by destruct (bool_decide (is_Some (secrets !! "GITHUB_TOKEN"))).
Qed.

Lemma create_support_ticket_configured W title description token repo tr :
  st_secrets W !! "GITHUB_TOKEN" = Some token ->
  st_secrets W !! "GITHUB_REPO" = Some repo ->
  let url := issues_url repo in
  let body := request_data title description in
  let headers := request_headers token in
  create_support_ticket_any W title description tr
  = (Ret (dumps
            match requests_post W url body headers with
            | Raise e => ticket_error_payload e
            | Ret r =>
                if status_code r =? 201 then
                  match response_json r with
                  | Raise e => ticket_error_payload e
                  | Ret (JObj items) =>
                      match lookup_item "number" items, lookup_item "html_url" items with
                      | Some ticket_id, Some ticket_url =>
                          success_payload ticket_id ticket_url title
                      | _, _ =>
                          error_payload "An unexpected error occurred while creating the ticket."
                      end
                  | Ret _ =>
                      error_payload "An unexpected error occurred while creating the ticket."
                  end
                else rejection_payload (status_code r) (text r)
            end),
     tr ++ [EvPost url body headers]).
Proof.
  intros Htoken Hrepo url body headers.
  destruct (secrets_of_lookup _ _ _ Htoken) as (secrets & Hfile & Htoken').
  destruct (secrets_of_lookup _ _ _ Hrepo) as (secrets' & Hfile' & Hrepo').
  assert (secrets' = secrets) as -> by congruence.
  unfold create_support_ticket_any. run_monad. rewrite Hfile.
  rewrite (is_Some_lookup_true _ _ _ Htoken'), (is_Some_lookup_true _ _ _ Hrepo').
  cbn [negb]. rewrite Htoken', Hrepo'. fold url body headers.
  destruct (requests_post W url body headers) as [r|e]; [|done].
  destruct (status_code r =? 201); [|done].
  destruct (response_json r) as [v|e]; [|done].
  destruct v as [| | | | |items|items]; try done.
  destruct (lookup_item "number" items) as [ticket_id|]; [|done].
  by destruct (lookup_item "html_url" items) as [ticket_url|].
Qed.



(** C7. With both secrets present, when the tracker answers the POST with
    status 201 and a JSON object holding [number] and [html_url],
    [create_support_ticket] returns the success payload: status "success",
    the ticket id "GH-" followed by the number as Python prints it, the
    URL of the response unchanged, the title given, and the confirmation
    message naming that ticket id and URL. For an integer number the
    ticket id is "GH-" followed by its decimal digits. *)
Theorem created_ticket_is_reported
  (W : world) (title description token repo : string) (r : response)
  (items : list (string * json)) (number url : json) (tr : list event) :
  st_secrets W !! "GITHUB_TOKEN" = Some token ->
  st_secrets W !! "GITHUB_REPO" = Some repo ->
  requests_post W (issues_url repo) (request_data (JStr title) (JStr description))
                (request_headers token) = Ret r ->
  status_code r = 201 ->
  response_json r = Ret (JObj items) ->
  lookup_item "number" items = Some number ->
  lookup_item "html_url" items = Some url ->
  create_support_ticket W title description tr
  = (Ret (dumps (JObj [ ("status", JStr "success");
                        ("ticket_id", JStr ("GH-" +:+ py_str number));
                        ("ticket_url", url);
                        ("title", JStr title);
                        ("message",
                         JStr ("Support ticket GH-" +:+ py_str number
                               +:+ " has been successfully created. A human will review it at: "
                               +:+ py_str url)) ])),
     tr ++ [EvPost (issues_url repo) (request_data (JStr title) (JStr description))
                   (request_headers token)])
  /\ (forall n, number = JInt n -> "GH-" +:+ py_str number = "GH-" +:+ str_of_Z n).
Proof.
  intros Htoken Hrepo Hpost Hstatus Hjson Hnumber Hurl. split.
  - unfold create_support_ticket.
    rewrite (create_support_ticket_configured _ _ _ _ _ _ Htoken Hrepo).
    cbn zeta. by rewrite Hpost, Hstatus, Hjson, Hnumber, Hurl.
  - by intros n ->.
Qed.

Lemma network_error_is_not_a_rejection status body :
  dumps network_error_payload <> dumps (rejection_payload status body).
Proof. intros H. vm_compute in H. discriminate H. Qed.

(** C8. With both secrets present: when the tracker answers the POST with
    a status other than 201, [create_support_ticket] returns an error
    payload whose message carries that status code and whose [details] is
    the raw response body; when the POST fails at the network level (a
    [RequestException]) it returns the "network error" payload, which
    differs from the rejection payload of every status and body. *)
Theorem failed_ticket_is_reported
  (W : world) (title description token repo : string) (tr : list event) :
  st_secrets W !! "GITHUB_TOKEN" = Some token ->
  st_secrets W !! "GITHUB_REPO" = Some repo ->
  let url := issues_url repo in
  let body := request_data (JStr title) (JStr description) in
  let headers := request_headers token in
  (forall r,
      requests_post W url body headers = Ret r ->
      status_code r <> 201 ->
      create_support_ticket W title description tr
      = (Ret (dumps (JObj [ ("error",
                             JStr ("Failed to create ticket. GitHub API responded with status "
                                   +:+ str_of_Z (status_code r) +:+ "."));
                            ("details", JStr (text r)) ])),
         tr ++ [EvPost url body headers]))
  /\ (forall msg,
        requests_post W url body headers = Raise (RequestException msg) ->
        create_support_ticket W title description tr
        = (Ret (dumps (JObj [("error",
                              JStr "Failed to create ticket: A network error occurred.")])),
           tr ++ [EvPost url body headers]))
  /\ (forall status raw,
        dumps (JObj [("error", JStr "Failed to create ticket: A network error occurred.")])
        <> dumps (JObj [ ("error",
                          JStr ("Failed to create ticket. GitHub API responded with status "
                                +:+ str_of_Z status +:+ "."));
                         ("details", JStr raw) ])).
Proof.
  intros Htoken Hrepo url body headers.
  split; [|split].
  - intros r Hpost Hstatus. unfold create_support_ticket.
    rewrite (create_support_ticket_configured _ _ _ _ _ _ Htoken Hrepo).
    cbn zeta. fold url body headers. rewrite Hpost.
    by apply Z.eqb_neq in Hstatus as ->.
  - intros msg Hpost. unfold create_support_ticket.
    rewrite (create_support_ticket_configured _ _ _ _ _ _ Htoken Hrepo).
    cbn zeta. fold url body headers. by rewrite Hpost.
  - intros status raw. apply network_error_is_not_a_rejection.
Qed.

(** ** A small program logic for the trace monad *)

Section Emits.

Context {A B : Type}.
Implicit Types (P : event -> Prop).

Lemma emits_ret P (a : A) (Q : A -> Prop) : Q a -> emits P (ret a) Q.
Proof.
  intros HQ tr. exists []. rewrite app_nil_r. cbn.
  split; [done|]. split; [constructor|]. by intros ? [= <-].
Qed.

Lemma emits_raise P (e : exn) (Q : A -> Prop) : emits P (raise e) Q.
Proof.
  intros tr. exists []. rewrite app_nil_r. cbn.
  split; [done|]. split; [constructor|]. done.
Qed.

Lemma emits_lift P (r : res A) (Q : A -> Prop) :
  (forall a, r = Ret a -> Q a) -> emits P (lift r) Q.
Proof.
  intros HQ tr. exists []. rewrite app_nil_r. cbn.
  split; [done|]. split; [constructor|]. done.
Qed.

Lemma emits_bind P (m : M A) (k : A -> M B) (Q : A -> Prop) (R : B -> Prop) :
  emits P m Q -> (forall a, Q a -> emits P (k a) R) -> emits P (bind m k) R.
Proof.
  intros Hm Hk tr. destruct (Hm tr) as (evs & Htr & HP & HQ).
  unfold bind. destruct (m tr) as [[a|e] tr1]; cbn in *; subst tr1.
  - destruct (Hk a (HQ a eq_refl) (tr ++ evs)) as (evs' & Htr' & HP' & HR).
    exists (evs ++ evs'). rewrite Htr', (assoc_L (++)).
    split; [done|]. split; [by apply Forall_app|done].
  - exists evs. split; [done|]. split; [done|]. done.
Qed.

Lemma emits_try_except P (body : M A) (handler : exn -> M A) (Q : A -> Prop) :
  emits P body Q -> (forall e, emits P (handler e) Q) ->
  emits P (try_except body handler) Q.
Proof.
  intros Hm Hh tr. destruct (Hm tr) as (evs & Htr & HP & HQ).
  unfold try_except. destruct (body tr) as [[a|e] tr1]; cbn in *; subst tr1.
  - exists evs. split; [done|]. split; [done|]. intros ? [= <-]. by apply HQ.
  - destruct (Hh e (tr ++ evs)) as (evs' & Htr' & HP' & HR).
    exists (evs ++ evs'). rewrite Htr', (assoc_L (++)).
    split; [done|]. split; [by apply Forall_app|done].
Qed.

Lemma emits_weaken P P' (m : M A) (Q Q' : A -> Prop) :
  emits P m Q -> (forall e, P e -> P' e) -> (forall a, Q a -> Q' a) ->
  emits P' m Q'.
Proof.
  intros Hm HP HQ tr. destruct (Hm tr) as (evs & Htr & HPs & HQs).
  exists evs. split; [done|]. split; [|by auto].
  eapply Forall_impl; [exact HPs|done].
Qed.

End Emits.

Lemma emits_emit P (e : event) : P e -> emits P (emit e) (fun _ => True).
Proof.
  intros HP tr. exists [e]. cbn. split; [done|]. split; [by repeat constructor|done].
Qed.

(** Computations whose result is not constrained: the rules above,
    applied along the structure of the code. *)
Ltac emits_any :=
  repeat first
    [ by apply emits_ret
    | apply emits_raise
    | by apply emits_lift
    | by apply emits_emit
    | apply emits_try_except; [|intros ?]
    | eapply emits_bind with (Q := fun _ => True); [|intros ? _]
    | progress cbn zeta
    | match goal with
      | |- emits _ (if ?b then _ else _) _ => destruct b
      | |- emits _ (match ?x with _ => _ end) _ => destruct x
      end ].

(** The tools only reach the database and the tracker. *)
Lemma query_database_emits W sql_query :
  emits tool_event (query_database W sql_query) (fun _ => True).
Proof.
  unfold query_database, connect, execute, close, to_json. emits_any.
Qed.

Lemma create_support_ticket_emits W title description :
  emits tool_event (create_support_ticket_any W title description) (fun _ => True).
Proof.
  unfold create_support_ticket_any, secret, post, getitem. emits_any.
Qed.

(** ** The agent loop *)

Lemma tools_lookup W function_name :
  tools W !! function_name
  = if bool_decide (function_name = "query_database") then Some (call_query_database W)
    else if bool_decide (function_name = "create_support_ticket")
         then Some (call_create_support_ticket W)
    else None.
Proof.
  unfold tools. repeat case_bool_decide; subst.
  - by rewrite lookup_insert_eq.
  - rewrite lookup_insert_ne by done. by rewrite lookup_insert_eq.
  - rewrite !lookup_insert_ne by done. apply lookup_empty.
Qed.

Lemma registered_tool_emits W function_name tool_function args :
  tools W !! function_name = Some tool_function ->
  emits tool_event (tool_function args) (fun _ => True).
Proof.
  rewrite tools_lookup. repeat case_bool_decide; intros [= <-].
  - unfold call_query_database.
    eapply emits_bind with (Q := fun _ => True); [by apply emits_lift|].
    intros values _.
    repeat match goal with
           | |- emits _ (match ?x with _ => _ end) _ => destruct x
           end; try apply emits_raise.
    apply query_database_emits.
  - unfold call_create_support_ticket.
    eapply emits_bind with (Q := fun _ => True); [by apply emits_lift|].
    intros values _.
    repeat match goal with
           | |- emits _ (match ?x with _ => _ end) _ => destruct x
           end; try apply emits_raise.
    apply create_support_ticket_emits.
Qed.

Lemma tool_event_keeps_chat chat e : tool_event e -> keeps_chat chat e.
Proof. by destruct e. Qed.

Lemma send_message_emits W chat0 chat m :
  chat0 `prefix_of` chat ->
  emits (keeps_chat chat0) (send_message W chat m)
        (fun r => chat0 `prefix_of` fst r).
Proof.
  intros Hpre. unfold send_message. cbn zeta.
  eapply emits_bind with (Q := fun _ => True).
  { apply emits_emit. cbn. by apply prefix_app_r. }
  intros _ _. eapply emits_bind with (Q := fun _ => True); [by apply emits_lift|].
  intros p _. apply emits_ret. cbn. by do 2 apply prefix_app_r.
Qed.

Lemma agent_loop_emits W chat0 fuel :
  forall chat response_part,
    chat0 `prefix_of` chat ->
    emits (keeps_chat chat0) (agent_loop W fuel chat response_part) (fun _ => True).
Proof.
  induction fuel as [|fuel IH]; intros chat [function_name args|t] Hpre;
    cbn [agent_loop]; try by apply emits_ret.
  destruct (tools W !! function_name) as [tool_function|] eqn:Htool.
  - eapply emits_bind with (Q := fun _ => True); [by apply emits_emit|].
    intros _ _. eapply emits_bind with (Q := fun _ => True).
    { eapply emits_weaken; [by eapply registered_tool_emits| |done].
      apply tool_event_keeps_chat. }
    intros function_result _.
    eapply emits_bind with (Q := fun _ => True); [by apply emits_lift|].
    intros content _.
    eapply emits_bind; [by apply send_message_emits|].
    intros r Hr. by apply IH.
  - eapply emits_bind; [by apply send_message_emits|].
    intros r Hr. by apply IH.
Qed.

Lemma all_but_last_snoc {A} (l : list A) (x : A) : all_but_last (l ++ [x]) = l.
Proof.
  unfold all_but_last. rewrite length_app. cbn [length].
  replace (length l + 1 - 1)%nat with (length l) by lia.
  apply take_app_length.
Qed.

Lemma handle_prompt_emits W fuel messages prompt :
  emits (keeps_history messages) (handle_prompt W fuel messages prompt)
        (fun r => forall messages',
             r = Some messages' ->
             exists new, messages' = messages ++ new /\ Forall script_turn new).
Proof.
  unfold handle_prompt. cbn zeta.
  eapply emits_bind with (Q := fun _ => True); [by apply emits_emit|].
  intros _ _. apply emits_try_except.
  - rewrite all_but_last_snoc.
    eapply emits_bind with (Q := fun _ => True); [by apply emits_lift|].
    intros new_prompt _.
    eapply emits_bind; [by apply send_message_emits|].
    intros r Hr.
    eapply emits_bind with (Q := fun _ => True); [by apply agent_loop_emits|].
    intros [[chat response_part]|] _.
    + eapply emits_bind with (Q := fun _ => True).
      { apply emits_emit. done. }
      intros _ _. apply emits_ret. intros messages' [= <-].
      exists [{| role := "user"; parts := prompt |};
              {| role := "model"; parts := final_response response_part |}].
      split; [by rewrite <- (assoc_L (++))|].
      constructor; [by left|]. constructor; [by right|]. constructor.
    + by apply emits_ret.
  - intros e. eapply emits_bind with (Q := fun _ => True); [by apply emits_emit|].
    intros _ _. apply emits_ret. intros messages' [= <-].
    exists [{| role := "user"; parts := prompt |}].
    split; [done|]. constructor; [by left|]. constructor.
Qed.

Lemma display_run messages tr :
  display messages tr
  = (Ret tt,
     tr ++ map (fun msg => EvChatMessage (role msg) (parts msg)) (displayed messages)).
Proof.
  unfold display. generalize (displayed messages) as shown. intros shown. revert tr.
  induction shown as [|msg shown IH]; intros tr; cbn [foldr map].
  - by rewrite List.app_nil_r.
  - unfold bind at 1, emit at 1. rewrite IH. by rewrite <- (assoc_L (++)).
Qed.

Lemma displayed_not_function messages t : t ∈ displayed messages -> role t <> "function".
Proof. unfold displayed. intros H. by apply list_elem_of_filter in H as [? _]. Qed.

Lemma run_script_emits W fuel messages prompt :
  emits (keeps_history messages) (run_script W fuel (Some messages) prompt)
        (fun r => forall messages',
             r = Some messages' ->
             exists new, messages' = messages ++ new /\ Forall script_turn new).
Proof.
  unfold run_script. cbn [init_session]. cbn zeta.
  eapply emits_bind with (Q := fun _ => True).
  - intros tr. rewrite display_run. eexists. split; [done|]. split; [|done].
    apply Forall_forall. intros e He.
    apply list_elem_of_fmap in He as (msg & -> & Hmsg). cbn.
    by apply displayed_not_function in Hmsg.
  - intros _ _. destruct prompt as [prompt|].
    + apply handle_prompt_emits.
    + apply emits_ret. intros messages' [= <-]. exists [].
      by rewrite List.app_nil_r.
Qed.

Lemma last_item_snoc {A} (l : list A) (x : A) : last_item (l ++ [x]) = Ret x.
Proof. unfold last_item. by rewrite last_snoc. Qed.

(** The first thing a prompt causes: it is displayed, and the request to
    the model carries the whole session history followed by the prompt. *)
Lemma handle_prompt_first_request W fuel messages prompt tr :
  exists evs,
    snd (handle_prompt W fuel messages prompt tr)
    = tr ++ [EvChatMessage "user" prompt;
             EvGenerate (map Hist messages ++ [Sent (MsgText prompt)])] ++ evs.
Proof.
  unfold handle_prompt. cbn zeta. rewrite all_but_last_snoc, last_item_snoc.
  unfold start_chat, send_message. cbn zeta.
  cbv [bind emit try_except lift ret]. cbn [parts].
  destruct (generate_content W _) as [response_part|e].
  - cbn [fst snd].
    match goal with
    | |- context [agent_loop W fuel ?chat response_part ?tr0] =>
        destruct (agent_loop_emits W (map Hist messages) fuel chat response_part
                    ltac:(by do 2 apply prefix_app_r) tr0) as (evs & Hevs & _);
        destruct (agent_loop W fuel chat response_part tr0) as [[[[c p]|]|e] tr1]
    end; cbn [snd] in *; subst; eexists;
      rewrite <- ?(assoc_L (++)); cbn [app]; reflexivity.
  - eexists. rewrite <- ?(assoc_L (++)). cbn [app snd]. reflexivity.
Qed.

Lemma interaction_extends W fuel before after :
  interaction W fuel before after ->
  exists new, fst after = fst before ++ new /\ Forall script_turn new.
Proof.
  intros [prompt Hrun].
  destruct (run_script_emits W fuel (fst before) (Some prompt) (snd before))
    as (_ & _ & _ & HQ).
  rewrite Hrun in HQ. by apply (HQ _ eq_refl).
Qed.

(** The session history only grows. *)
Lemma interactions_extend W fuel before after :
  rtc (interaction W fuel) before after -> fst before `prefix_of` fst after.
Proof.
  induction 1 as [|x y z Hstep _ IH]; [done|].
  destruct (interaction_extends _ _ _ _ Hstep) as (new & Hnew & _).
  etrans; [|exact IH]. rewrite Hnew. by apply prefix_app_r.
Qed.

(** The sessions the script reaches from a fresh one hold user turns and
    model turns only. *)
Lemma reachable_session_turns W fuel tr after :
  rtc (interaction W fuel) (init_session None, tr) after ->
  Forall script_turn (fst after).
Proof.
  intros Hsteps. remember (init_session None, tr) as before eqn:Hb.
  assert (Forall script_turn (fst before)) as Hbefore.
  { subst before. cbn. constructor; [by right|constructor]. }
  clear Hb. induction Hsteps as [|x y z Hstep _ IH]; [done|].
  apply IH. destruct (interaction_extends _ _ _ _ Hstep) as (new & -> & Hnew).
  by apply Forall_app.
Qed.

Lemma script_turn_not_function t : script_turn t -> role t <> "function".
Proof. intros [Hr|Hr]; by rewrite Hr. Qed.

Lemma displayed_all messages :
  Forall script_turn messages -> displayed messages = messages.
Proof.
  unfold displayed. induction 1 as [|t messages Ht _ IH]; [done|].
  rewrite filter_cons_True by by apply script_turn_not_function. by rewrite IH.
Qed.

(** C5, as the code has it. The display loop leaves out every turn of
    role "function", whatever the session list holds, and a turn starts by
    sending the model the whole session history in order, followed by the
    prompt. But the script stores user turns and model turns only: in
    every session reached from a fresh one the display loop shows every
    turn, nothing is displayed under the role "function", and the history
    sent at the start of the next turn holds no turn of role "function" and
    no function response of an earlier turn. *)
Theorem tool_results_stay_inside_their_turn
  (W : world) (fuel : nat) (tr : list event) (after : list Turn * list event)
  (prompt : string) :
  rtc (interaction W fuel) (init_session None, tr) after ->
  let request := map Hist (fst after) ++ [Sent (MsgText prompt)] in
  (forall messages t, t ∈ messages -> role t = "function" -> t ∉ displayed messages)
  /\ displayed (fst after) = fst after
  /\ (exists evs,
        snd (run_script W fuel (Some (fst after)) (Some prompt) (snd after))
        = snd after
          ++ map (fun msg => EvChatMessage (role msg) (parts msg)) (fst after)
          ++ [EvChatMessage "user" prompt; EvGenerate request] ++ evs
        /\ forall body,
             EvChatMessage "function" body
             ∉ map (fun msg => EvChatMessage (role msg) (parts msg)) (fst after)
               ++ [EvChatMessage "user" prompt; EvGenerate request] ++ evs)
  /\ Forall (fun c => is_function_item c = false) request.
Proof.
  intros Hsteps request.
  pose proof (reachable_session_turns _ _ _ _ Hsteps) as Hturns.
  split; [intros messages t _ Hrole Hshown; by apply displayed_not_function in Hshown|].
  split; [by apply displayed_all|].
  split.
  - destruct (run_script_emits W fuel (fst after) (Some prompt) (snd after))
      as (all & Htr & Hall & _).
    destruct (handle_prompt_first_request W fuel (fst after) prompt
                (snd after ++ map (fun msg => EvChatMessage (role msg) (parts msg))
                                  (displayed (fst after)))) as [evs Hfirst].
    exists evs.
    assert (snd (run_script W fuel (Some (fst after)) (Some prompt) (snd after))
            = snd after
              ++ map (fun msg => EvChatMessage (role msg) (parts msg)) (fst after)
              ++ [EvChatMessage "user" prompt; EvGenerate request] ++ evs) as Hrun.
    { unfold run_script. cbn [init_session]. unfold bind at 1. rewrite display_run.
      rewrite Hfirst, (displayed_all _ Hturns). by rewrite <- !(assoc_L (++)). }
    split; [exact Hrun|].
    rewrite Hrun in Htr. apply app_inv_head in Htr. rewrite Htr.
    intros body Hbody. rewrite Forall_forall in Hall. by apply Hall in Hbody.
  - apply Forall_app. split; [|by repeat constructor].
    apply Forall_fmap. eapply Forall_impl; [exact Hturns|].
    intros t Ht. cbn. apply bool_decide_eq_false_2. by apply script_turn_not_function.
Qed.

Lemma unknown_tool_message_is_corrective chat function_name :
  is_corrective (EvGenerate (chat ++ [Sent (unknown_tool_message function_name)])) = true.
Proof.
  unfold is_corrective, unknown_tool_message. rewrite last_snoc. apply prefix_app.
Qed.

(** C4, as the code has it. When the model asks for a tool that is not in
    the registry, that iteration of the loop runs no tool and sends the
    model one message, the corrective text "Error: Unknown tool '<name>'"
    after the chat so far; the loop then goes on with the reply as it would
    with any other: a text reply ends the loop normally with that text as
    the answer, a further function call is handled in turn, and only a
    fault of the model service ends the loop with an exception. *)
Theorem unknown_tool_gets_a_corrective_message
  (W : world) (fuel : nat) (chat : list chat_item)
  (function_name : string) (args : list (string * json)) (tr : list event) :
  tools W !! function_name = None ->
  let request := chat ++ [Sent (unknown_tool_message function_name)] in
  is_corrective (EvGenerate request) = true
  /\ agent_loop W (S fuel) chat (FunctionCall function_name args) tr
     = match generate_content W request with
       | Ret reply =>
           agent_loop W fuel (request ++ [Reply reply]) reply (tr ++ [EvGenerate request])
       | Raise e => (Raise e, tr ++ [EvGenerate request])
       end
  /\ (forall t,
        generate_content W request = Ret (TextPart t) ->
        agent_loop W (S fuel) chat (FunctionCall function_name args) tr
        = (Ret (Some (request ++ [Reply (TextPart t)], TextPart t)),
           tr ++ [EvGenerate request]))
  /\ (forall e,
        generate_content W request = Raise e ->
        agent_loop W (S fuel) chat (FunctionCall function_name args) tr
        = (Raise e, tr ++ [EvGenerate request])).
Proof.
  intros Htool request.
  assert (agent_loop W (S fuel) chat (FunctionCall function_name args) tr
          = match generate_content W request with
            | Ret reply =>
                agent_loop W fuel (request ++ [Reply reply]) reply
                           (tr ++ [EvGenerate request])
            | Raise e => (Raise e, tr ++ [EvGenerate request])
            end) as Hstep.
  { cbn [agent_loop]. rewrite Htool. unfold send_message. cbn zeta. fold request.
    cbv [bind emit lift ret]. by destruct (generate_content W request). }
  split; [apply unknown_tool_message_is_corrective|].
  split; [done|]. split.
  - intros t Ht. rewrite Hstep, Ht. by destruct fuel.
  - intros e He. by rewrite Hstep, He.
Qed.

(** The model asks for [get_weather] and then answers in text. *)
Lemma unknown_tool_gets_a_corrective_message_witness :
  agent_loop Samples.weather_world 5
    [Hist greeting; Sent (MsgText "weather?"); Reply (FunctionCall "get_weather" [])]
    (FunctionCall "get_weather" []) []
  = (Ret (Some ([Hist greeting; Sent (MsgText "weather?");
                 Reply (FunctionCall "get_weather" []);
                 Sent (MsgText "Error: Unknown tool 'get_weather'");
                 Reply (TextPart "I cannot do that.")],
                TextPart "I cannot do that.")),
     [EvGenerate [Hist greeting; Sent (MsgText "weather?");
                  Reply (FunctionCall "get_weather" []);
                  Sent (MsgText "Error: Unknown tool 'get_weather'")]]).
Proof.
  refine (proj1 (proj2 (proj2
            (unknown_tool_gets_a_corrective_message Samples.weather_world 4
               [Hist greeting; Sent (MsgText "weather?");
                Reply (FunctionCall "get_weather" [])]
               "get_weather" [] [] _))) "I cannot do that." _).
  - vm_compute. reflexivity.
  - vm_compute. reflexivity.
Defined.

(** C4, as the specification states it, fails. The model asks for the
    unknown tool [get_weather] and, told so, answers in text: the loop
    returns that text and raises nothing, and the turn ends with the answer
    appended to the session and no error shown. When the model asks for two
    unknown tools in a row, two corrective messages are sent in one turn. *)
Lemma unknown_tool_does_not_end_in_error :
  tools Samples.weather_world !! "get_weather" = None
  /\ ~ raises (agent_loop Samples.weather_world 5
                 [Hist greeting; Sent (MsgText "weather?");
                  Reply (FunctionCall "get_weather" [])]
                 (FunctionCall "get_weather" []) [])
  /\ fst (run_script Samples.weather_world 5 None (Some "weather?") [])
     = Ret (Some [greeting;
                  {| role := "user"; parts := "weather?" |};
                  {| role := "model"; parts := "I cannot do that." |}])
  /\ Forall (fun e => match e with EvError _ => False | _ => True end)
            (snd (run_script Samples.weather_world 5 None (Some "weather?") []))
  /\ corrective_messages
       (snd (run_script Samples.two_unknown_world 5 None (Some "weather?") [])) = 2%nat.
Proof.
  split; [by vm_compute|].
  split; [intros [e He]; vm_compute in He; discriminate He|].
  split; [by vm_compute|].
  split; [vm_compute; repeat constructor|by vm_compute].
Qed.

(** C5, as the specification states it, fails. In a fresh session the
    question "How many movies are there?" makes the model call
    [query_database], and the answer of the tool is sent to the model as a
    function response within that turn. The session afterwards holds the
    greeting, the question and the answer. The history sent to the model at
    the next question is that session followed by the new prompt: it holds
    no function response and no turn of role "function", so the tool result
    of the first turn is not part of it. *)
Lemma tool_result_is_not_sent_on_the_next_turn :
  [Hist greeting;
   Sent (MsgText "How many movies are there?");
   Reply (FunctionCall "query_database"
            [("sql_query", JStr "SELECT COUNT(*) AS n FROM movies")]);
   Sent (MsgFunctionResponse "query_database" (JArr [JObj [("n", JInt 1)]]))]
  ∈ requests (snd Samples.after_counting)
  /\ fst Samples.after_counting
     = [greeting;
        {| role := "user"; parts := "How many movies are there?" |};
        {| role := "model"; parts := "There is 1 movie." |}]
  /\ hd_error (requests (snd (run_script Samples.counting_world 5
                                         (Some (fst Samples.after_counting))
                                         (Some "Which one?") [])))
     = Some [Hist greeting;
             Hist {| role := "user"; parts := "How many movies are there?" |};
             Hist {| role := "model"; parts := "There is 1 movie." |};
             Sent (MsgText "Which one?")]
  /\ Forall (fun c => is_function_item c = false)
            [Hist greeting;
             Hist {| role := "user"; parts := "How many movies are there?" |};
             Hist {| role := "model"; parts := "There is 1 movie." |};
             Sent (MsgText "Which one?")]
  /\ ~ Forall (fun c => is_function_item c = false)
              [Hist greeting;
               Sent (MsgText "How many movies are there?");
               Reply (FunctionCall "query_database"
                        [("sql_query", JStr "SELECT COUNT(*) AS n FROM movies")]);
               Sent (MsgFunctionResponse "query_database" (JArr [JObj [("n", JInt 1)]]))].
Proof.
  split; [vm_compute; apply list_elem_of_further, list_elem_of_here|].
  split; [by vm_compute|]. split; [by vm_compute|].
  split; [by repeat constructor|].
  intros Hnone. rewrite Forall_forall in Hnone.
  specialize (Hnone (Sent (MsgFunctionResponse "query_database"
                                               (JArr [JObj [("n", JInt 1)]])))).
  by discriminate Hnone; do 3 apply list_elem_of_further; apply list_elem_of_here.
Qed.

(** ** JSON texts and what the query tool returns for a long result *)

Module JsonTextFacts.
Import JsonText.

Lemma last_char_append s t :
  last_char (s +:+ t) = match last_char t with
                        | Some c => Some c
                        | None => last_char s
                        end.
Proof.
  destruct t as [|c t].
  - by rewrite str_app_nil_r.
  - by rewrite last_char_app, last_char_cons.
Qed.

Lemma last_char_none s : last_char s = None -> s = EmptyString.
Proof. destruct s; [done|]. by rewrite last_char_cons. Qed.

Lemma all_chars_last p s c :
  all_chars p s = true -> last_char s = Some c -> p c = true.
Proof.
  induction s as [|d s IH]; [done|]. cbn [all_chars].
  intros [Hd Hs]%andb_true_iff. rewrite last_char_cons.
  destruct (last_char s) as [c'|] eqn:E; cbn; intros [= <-]; [by apply IH|done].
Qed.

Lemma digits_last ds :
  digits ds -> exists c, last_char ds = Some c /\ is_digit c = true.
Proof.
  intros [Hne Hall]. destruct (last_char ds) as [c|] eqn:E.
  - exists c. split; [done|]. by eapply all_chars_last.
  - by apply last_char_none in E.
Qed.

Lemma number_last s :
  number s -> exists c, last_char s = Some c /\ is_digit c = true.
Proof.
  intros [sign int frac exp _ Hint _ Hfrac Hexp].
  destruct (digits_last _ Hint) as (ci & Hci & Hdi).
  rewrite !last_char_append.
  destruct Hexp as [-> | (e & sg & ds & _ & _ & Hds & ->)].
  - cbn [last_char]. destruct Hfrac as [-> | (ds & Hds & ->)].
    + cbn [last_char]. rewrite Hci. eauto.
    + rewrite last_char_append.
      destruct (digits_last _ Hds) as (c & -> & Hc). eauto.
  - rewrite !last_char_append.
    destruct (digits_last _ Hds) as (c & -> & Hc). eauto.
Qed.

(** A JSON value ends with a character that closes a value. *)
Lemma value_last v :
  value v -> exists c, last_char v = Some c /\ closes_value c = true.
Proof.
  destruct 1 as [| | |s Hs|s _|w _|es _|w _|ms _];
    rewrite ?last_char_append; try (by eexists).
  destruct (number_last _ Hs) as (c & Hc & Hd). exists c. split; [done|].
  unfold closes_value. rewrite Hd. apply orb_true_r.
Qed.

(** A JSON text ends with white space or with the end of its value. *)
Lemma json_text_last s c :
  json_text s -> last_char s = Some c -> is_ws c = true \/ closes_value c = true.
Proof.
  intros [w1 v w2 _ Hv Hw2]. rewrite !last_char_append.
  destruct (last_char w2) as [c2|] eqn:E2.
  - intros [= <-]. left. by eapply all_chars_last.
  - destruct (value_last _ Hv) as (cv & -> & Hcv). intros [= <-]. by right.
Qed.

(** The records followed by the truncation note are not a JSON text,
    whatever the records are. *)
Lemma noted_answer_is_not_json records n :
  ~ json_text (records +:+ truncation_note n).
Proof.
  intros Hjson.
  assert (last_char (records +:+ truncation_note n) = Some ")"%char) as Hlast.
  { unfold truncation_note. by rewrite !last_char_append. }
  destruct (json_text_last _ _ Hjson Hlast) as [H|H]; vm_compute in H; discriminate H.
Qed.

End JsonTextFacts.

(** A statement that returns 21 rows is answered, without an exception,
    by 20 records followed by the note "... (truncated, 1 more rows)": the
    note stands outside the JSON structure, so the answer as a whole is not
    a JSON text. *)
Theorem long_result_is_not_json :
  query_database (Samples.db_world true (Samples.rows_db 21)) "SELECT n FROM t" []
  = (Ret (Samples.first_20_records +:+ truncation_note 1),
     [EvConnect DB_FILENAME; EvExecute "SELECT n FROM t"; EvClose])
  /\ Samples.records_json {| columns := ["n"]; data := take 20 (Samples.count_rows 21) |}
     = Ret Samples.first_20_records
  /\ ~ JsonText.json_text (Samples.first_20_records +:+ truncation_note 1).
Proof.
  split; [by vm_compute|]. split; [by vm_compute|].
  apply JsonTextFacts.noted_answer_is_not_json.
Qed.

(** C6 fails on the code on the error path. The database is there and
    the engine rejects the statement: [query_database] returns the error
    payload, and the connection it opened is not closed when it returns. *)
Theorem connection_stays_open_on_error :
  query_database (Samples.db_world true Samples.failing_db) "SELEC 1" []
  = (Ret (dumps (error_payload "An error occurred: near SELEC: syntax error")),
     [EvConnect DB_FILENAME; EvExecute "SELEC 1"])
  /\ open_connections
       (snd (query_database (Samples.db_world true Samples.failing_db) "SELEC 1" []))
     = 1%nat.
Proof. split; by vm_compute. Qed.

(** ** The theorems at concrete inputs *)

(** The keyword "update" inside the identifier [LastUpdated], with the
    database file absent. *)
Lemma banned_keyword_is_denied_witness :
  is_query_safe "select * from LastUpdated" = false
  /\ query_database (Samples.db_world false (Samples.rows_db 1))
                    "select * from LastUpdated" []
     = (Ret denied_answer, [])
  /\ is_error_payload denied_answer.
Proof.
  apply (banned_keyword_is_denied _ "select * from LastUpdated" "update").
  - unfold BANNED_SQL_KEYWORDS. do 2 apply list_elem_of_further. apply list_elem_of_here.
  - exists "select * from Last", "Update", "d". split; reflexivity.
Defined.


(** [BEGIN] has no result set. *)
Lemma no_result_set_gets_message_witness :
  query_database (Samples.db_world true Samples.no_result_db) "BEGIN" []
  = (Ret (dumps (JObj [("message", JStr "Query executed, but no results to return.")])),
     [EvConnect DB_FILENAME; EvExecute "BEGIN"; EvClose])
  /\ dumps (JObj [("message", JStr "Query executed, but no results to return.")]) <> "[]"
  /\ ~ is_error_payload
         (dumps (JObj [("message", JStr "Query executed, but no results to return.")])).
Proof.
  apply (no_result_set_gets_message
           (Samples.db_world true Samples.no_result_db) "BEGIN"
           Samples.no_result_cursor [] []).
  - repeat split; reflexivity.
  - left. reflexivity.
Defined.

(** The tracker creates issue 42. *)
Lemma created_ticket_is_reported_witness :
  create_support_ticket
    (Samples.ticket_world Samples.github_secrets (Ret Samples.created_42)) "Bug" "desc" []
  = (Ret (dumps (JObj [ ("status", JStr "success");
                        ("ticket_id", JStr "GH-42");
                        ("ticket_url", JStr "http://x/42");
                        ("title", JStr "Bug");
                        ("message",
                         JStr ("Support ticket GH-42 has been successfully created. "
                               +:+ "A human will review it at: http://x/42")) ])),
     [EvPost "https://api.github.com/repos/octo/demo/issues"
             (JObj [("title", JStr "Bug"); ("body", JStr "desc")])
             [("Authorization", "Bearer t0ken");
              ("Accept", "application/vnd.github.v3+json")]]).
Proof.
  exact (proj1 (created_ticket_is_reported
                  (Samples.ticket_world Samples.github_secrets (Ret Samples.created_42))
                  "Bug" "desc" "t0ken" "octo/demo" Samples.created_42
                  [("number", JInt 42); ("html_url", JStr "http://x/42")]
                  (JInt 42) (JStr "http://x/42") []
                  eq_refl eq_refl eq_refl eq_refl eq_refl eq_refl eq_refl)).
Defined.

(** The tracker answers 422. *)
Lemma failed_ticket_is_reported_witness :
  create_support_ticket
    (Samples.ticket_world Samples.github_secrets (Ret Samples.rejected_422)) "Bug" "desc" []
  = (Ret (dumps (JObj [ ("error",
                         JStr "Failed to create ticket. GitHub API responded with status 422.");
                        ("details", JStr "Validation Failed") ])),
     [EvPost "https://api.github.com/repos/octo/demo/issues"
             (JObj [("title", JStr "Bug"); ("body", JStr "desc")])
             [("Authorization", "Bearer t0ken");
              ("Accept", "application/vnd.github.v3+json")]]).
Proof.
  refine (proj1 (failed_ticket_is_reported
                   (Samples.ticket_world Samples.github_secrets (Ret Samples.rejected_422))
                   "Bug" "desc" "t0ken" "octo/demo" [] eq_refl eq_refl)
                Samples.rejected_422 eq_refl _).
  vm_compute. discriminate.
Defined.

(** A fresh session in which the model called the query tool, one
    question later. *)
Lemma tool_results_stay_inside_their_turn_witness :
  (forall messages t, t ∈ messages -> role t = "function" -> t ∉ displayed messages)
  /\ displayed (fst Samples.after_counting) = fst Samples.after_counting
  /\ (exists evs,
        snd (run_script Samples.counting_world 5 (Some (fst Samples.after_counting))
                        (Some "Which one?") (snd Samples.after_counting))
        = snd Samples.after_counting
          ++ map (fun msg => EvChatMessage (role msg) (parts msg))
                 (fst Samples.after_counting)
          ++ [EvChatMessage "user" "Which one?";
              EvGenerate (map Hist (fst Samples.after_counting)
                          ++ [Sent (MsgText "Which one?")])] ++ evs
        /\ forall body,
             EvChatMessage "function" body
             ∉ map (fun msg => EvChatMessage (role msg) (parts msg))
                   (fst Samples.after_counting)
               ++ [EvChatMessage "user" "Which one?";
                   EvGenerate (map Hist (fst Samples.after_counting)
                               ++ [Sent (MsgText "Which one?")])] ++ evs)
  /\ Forall (fun c => is_function_item c = false)
            (map Hist (fst Samples.after_counting) ++ [Sent (MsgText "Which one?")]).
Proof.
  apply (tool_results_stay_inside_their_turn
           Samples.counting_world 5 [] Samples.after_counting "Which one?").
  apply rtc_once. exists "How many movies are there?". vm_compute. reflexivity.
Defined.

(** ** Further properties of the tools *)

Lemma try_except_never_raises {A} (body : M A) (handler : exn -> M A) :
  (forall e, never_raises (handler e)) -> never_raises (try_except body handler).
Proof.
  intros Hh tr. unfold try_except.
  destruct (body tr) as [[a|e] tr'] eqn:E; [by exists a|apply Hh].
Qed.

Lemma ret_never_raises {A} (a : A) : never_raises (ret a).
Proof. intros tr. by exists a. Qed.

(** [query_database] returns a string for every statement, in every world:
    no exception leaves the tool. *)
Theorem query_database_never_raises
  (W : world) (sql_query : string) (tr : list event) :
  exists out, fst (query_database W sql_query tr) = Ret out.
Proof.
  revert tr. change (never_raises (query_database W sql_query)).
  unfold query_database.
  destruct (negb (is_query_safe sql_query)); [apply ret_never_raises|].
  destruct (negb (os_path_exists W DB_FILENAME)); [apply ret_never_raises|].
  apply try_except_never_raises. intros e. apply ret_never_raises.
Qed.

(** [create_support_ticket] raises in one case only. When Streamlit finds
    no secrets file, the exception of the test of the two secrets, which
    stands before the [try], leaves the tool, and nothing is sent. With a
    secrets file the tool returns a string for every title and
    description, whatever the HTTP call does; when that file lacks one of
    the two secrets this string is the "missing configuration" payload,
    and nothing is sent. *)
Theorem create_support_ticket_raises_only_without_secrets
  (W : world) (title description : string) (tr : list event) :
  match secrets_toml W with
  | Raise e => create_support_ticket W title description tr = (Raise e, tr)
  | Ret secrets =>
      (exists out, fst (create_support_ticket W title description tr) = Ret out)
      /\ (secrets !! "GITHUB_TOKEN" = None \/ secrets !! "GITHUB_REPO" = None ->
          create_support_ticket W title description tr
          = (Ret (dumps (JObj [("error",
                                JStr "Failed to create ticket: Server is missing GitHub configuration.")])),
             tr))
  end.
Proof.
  destruct (secrets_toml W) as [secrets|e] eqn:Hfile.
  - split.
    + revert tr. change (never_raises (create_support_ticket W title description)).
      unfold create_support_ticket, create_support_ticket_any, has_secret.
      intros tr. cbv [bind lift ret]. rewrite Hfile.
      destruct (bool_decide (is_Some (secrets !! "GITHUB_TOKEN"))); [|by eexists].
      destruct (bool_decide (is_Some (secrets !! "GITHUB_REPO"))); [|by eexists].
      cbn [negb]. apply try_except_never_raises. intros e. apply ret_never_raises.
    + intros Hmissing. unfold create_support_ticket.
      rewrite create_support_ticket_unconfigured;
        [by rewrite Hfile|unfold st_secrets; by rewrite Hfile].
  - unfold create_support_ticket.
    rewrite create_support_ticket_unconfigured;
      [by rewrite Hfile|unfold st_secrets; rewrite Hfile; by left].
Qed.

(** A statement that passes the gate while the database file is absent is
    answered with the error that names the file and the setup script, and
    nothing is opened or executed. *)
Theorem missing_database_is_reported
  (W : world) (sql_query : string) (tr : list event) :
  is_query_safe sql_query = true ->
  os_path_exists W DB_FILENAME = false ->
  query_database W sql_query tr
  = (Ret (dumps (JObj [("error",
                        JStr "Database file 'movies.db' not found. Please run setup.py.")])),
     tr).
Proof.
  intros Hsafe Hfile. unfold query_database. by rewrite Hsafe, Hfile.
Qed.

(** A harmless statement with the database file absent. *)
Lemma missing_database_is_reported_witness :
  query_database (Samples.db_world false (Samples.rows_db 3)) "SELECT n FROM t" []
  = (Ret (dumps (JObj [("error",
                        JStr "Database file 'movies.db' not found. Please run setup.py.")])),
     []).
Proof.
  apply (missing_database_is_reported
           (Samples.db_world false (Samples.rows_db 3)) "SELECT n FROM t" []);
    reflexivity.
Defined.

(** [query_database] hands the engine no statement but its argument, and
    that one only when the gate lets it through: a denied statement is
    never executed. *)
Theorem only_safe_statements_are_executed
  (W : world) (sql_query : string) (tr : list event) :
  exists evs,
    snd (query_database W sql_query tr) = tr ++ evs
    /\ forall sql, EvExecute sql ∈ evs -> sql = sql_query /\ is_query_safe sql = true.
Proof.
  assert (emits (gated_event sql_query) (query_database W sql_query) (fun _ => True)) as H.
  { unfold query_database, connect, execute, close, to_json.
    destruct (is_query_safe sql_query) eqn:Hsafe; cbn [negb]; emits_any. }
  destruct (H tr) as (evs & Htr & Hevs & _). exists evs. split; [done|].
  intros sql Hin. rewrite Forall_forall in Hevs. apply Hevs in Hin as [-> Hsafe]. done.
Qed.

Lemma open_connections_after_query tr sql_query :
  open_connections (tr ++ query_events sql_query) = open_connections tr.
Proof. unfold open_connections. by rewrite fold_left_app. Qed.

(** When the statement is executed and its rows are fetched, the
    connection is closed when [query_database] returns, whether there is a
    result set or not and whether pandas writes the frame or raises. *)
Theorem connection_is_closed_after_fetch
  (W : world) (sql_query : string) (cur : cursor)
  (rows : list (list sql_value)) (tr : list event) :
  executes W sql_query cur rows ->
  snd (query_database W sql_query tr)
  = tr ++ [EvConnect DB_FILENAME; EvExecute sql_query; EvClose]
  /\ open_connections (snd (query_database W sql_query tr)) = open_connections tr.
Proof.
  intros Hexec.
  assert (snd (query_database W sql_query tr) = tr ++ query_events sql_query) as ->.
  { rewrite (query_database_executed _ _ _ _ _ Hexec). cbn zeta.
    destruct (truthy (description cur)); [|done].
    destruct (20 <? len (frame_of cur rows)).
    - by destruct (to_json_records W (head 20 (frame_of cur rows))).
    - by destruct (to_json_records W (frame_of cur rows)). }
  split; [done|]. apply open_connections_after_query.
Qed.

(** A result of 3 rows. *)
Lemma connection_is_closed_after_fetch_witness :
  snd (query_database (Samples.db_world true (Samples.rows_db 3)) "SELECT n FROM t" [])
  = [EvConnect DB_FILENAME; EvExecute "SELECT n FROM t"; EvClose]
  /\ open_connections
       (snd (query_database (Samples.db_world true (Samples.rows_db 3)) "SELECT n FROM t" []))
     = 0%nat.
Proof.
  apply (connection_is_closed_after_fetch
           (Samples.db_world true (Samples.rows_db 3)) "SELECT n FROM t"
           (Samples.rows_cursor 3) (Samples.count_rows 3) []).
  repeat split; reflexivity.
Defined.

(** When the connection is opened and [cur.execute] raises, the error
    payload of the [except] chain is returned and the connection is left
    open: one more connection is open after the call than before. *)
Theorem connection_is_left_open_when_execute_raises
  (W : world) (sql_query : string) (e : exn) (tr : list event) :
  is_query_safe sql_query = true ->
  os_path_exists W DB_FILENAME = true ->
  sqlite3_connect W DB_FILENAME = Ret tt ->
  cursor_execute W sql_query = Raise e ->
  query_database W sql_query tr
  = (Ret (dumps (database_error_payload e)),
     tr ++ [EvConnect DB_FILENAME; EvExecute sql_query])
  /\ open_connections (snd (query_database W sql_query tr)) = S (open_connections tr).
Proof.
  intros Hsafe Hfile Hconn Hexec.
  assert (query_database W sql_query tr
          = (Ret (dumps (database_error_payload e)),
             tr ++ [EvConnect DB_FILENAME; EvExecute sql_query])) as ->.
  { unfold query_database. rewrite Hsafe, Hfile. cbn [negb].
    run_monad. rewrite Hconn, Hexec. by rewrite <- (assoc_L (++)). }
  split; [done|]. unfold open_connections. cbn [snd]. by rewrite fold_left_app.
Qed.

(** The engine rejects [SELEC 1]. *)
Lemma connection_is_left_open_when_execute_raises_witness :
  query_database (Samples.db_world true Samples.failing_db) "SELEC 1" []
  = (Ret (dumps (database_error_payload (SqliteError "near SELEC: syntax error"))),
     [EvConnect DB_FILENAME; EvExecute "SELEC 1"])
  /\ open_connections
       (snd (query_database (Samples.db_world true Samples.failing_db) "SELEC 1" []))
     = 1%nat.
Proof.
  apply (connection_is_left_open_when_execute_raises
           (Samples.db_world true Samples.failing_db) "SELEC 1"
           (SqliteError "near SELEC: syntax error") []); reflexivity.
Defined.

(** ** Further properties of the session *)

(** The script stores no turn of role "function": in every session that
    interactions reach from a fresh one, every turn is a user turn or a
    model turn. *)
Theorem script_stores_no_function_turn
  (W : world) (fuel : nat) (tr : list event) (after : list Turn * list event) :
  rtc (interaction W fuel) (init_session None, tr) after ->
  Forall (fun t => role t <> "function") (fst after).
Proof.
  intros Hsteps.
  assert (Forall script_turn (fst after)) as Hturns.
  { remember (init_session None, tr) as before eqn:Hb.
    assert (Forall script_turn (fst before)) as Hbefore.
    { subst before. cbn. constructor; [by right|constructor]. }
    clear Hb. induction Hsteps as [|x y z Hstep _ IH]; [done|].
    apply IH. destruct (interaction_extends _ _ _ _ Hstep) as (new & -> & Hnew).
    by apply Forall_app. }
  eapply Forall_impl; [exact Hturns|].
  intros t [Hr|Hr]; rewrite Hr; done.
Qed.

(** A fresh session, one question later. *)
Lemma script_stores_no_function_turn_witness :
  Forall (fun t => role t <> "function")
         (fst (init_session None ++ [{| role := "user"; parts := "weather?" |};
                                     {| role := "model"; parts := "I cannot do that." |}],
               snd (run_script Samples.weather_world 5 (Some (init_session None))
                               (Some "weather?") []))).
Proof.
  apply (script_stores_no_function_turn Samples.weather_world 5 []).
  apply rtc_once. exists "weather?". vm_compute. reflexivity.
Defined.


(** ** The answers that are JSON texts *)

Module JsonAnswers.
Import JsonText.

Lemma escape_char_chars c rest : chars rest -> chars (escape_char c +:+ rest).
Proof.
  intros H.
  destruct c as [[] [] [] [] [] [] [] []]; vm_compute;
    first [ apply chars_plain; [reflexivity|exact H]
          | apply (chars_escape _ rest); [reflexivity|exact H]
          | apply (chars_unicode _ _ _ _ rest); [reflexivity..|exact H] ].
Qed.

(** What [json.dumps] writes between the quotes of a string is a legal
    JSON string body. *)
Lemma escape_chars s : chars (escape s).
Proof.
  induction s as [|c s IH]; [constructor|]. cbn [escape]. by apply escape_char_chars.
Qed.

Lemma quoted_value s : value (quoted s).
Proof. apply value_string, escape_chars. Qed.

Lemma ws_nil : ws EmptyString.
Proof. reflexivity. Qed.

Lemma ws_space : ws " ".
Proof. reflexivity. Qed.

(** One item [key: value] of an object of strings, as [json.dumps] writes
    it, after the white space [w]. *)
Lemma item_member w k s :
  ws w -> member (w +:+ quoted k +:+ ": " +:+ quoted s).
Proof.
  intros Hw.
  replace (w +:+ quoted k +:+ ": " +:+ quoted s)
    with (w +:+ dquote +:+ escape k +:+ dquote +:+ EmptyString +:+ ":"
            +:+ (" " +:+ quoted s +:+ EmptyString)).
  - apply member_intro; [done|apply escape_chars|apply ws_nil|].
    apply element_intro; [apply ws_space|apply quoted_value|apply ws_nil].
  - unfold quoted at 2. rewrite str_app_nil_r, !str_app_assoc. reflexivity.
Qed.

Lemma items_members w kv fields :
  ws w -> members (w +:+ join ", " (map item_text (kv :: fields))).
Proof.
  revert w kv. induction fields as [|kv' fields IH]; intros w kv Hw.
  - cbn [map join]. apply members_one. by apply item_member.
  - change (join ", " (map item_text (kv :: kv' :: fields)))
      with (item_text kv +:+ ", " +:+ join ", " (map item_text (kv' :: fields))).
    replace (w +:+ item_text kv +:+ ", " +:+ join ", " (map item_text (kv' :: fields)))
      with ((w +:+ item_text kv) +:+ ","
              +:+ (" " +:+ join ", " (map item_text (kv' :: fields)))).
    + apply members_more; [by apply item_member|]. apply IH, ws_space.
    + rewrite !str_app_assoc. reflexivity.
Qed.

Lemma string_object_is_json kv fields :
  json_text (dumps (string_object (kv :: fields))).
Proof.
  unfold json_text.
  replace (dumps (string_object (kv :: fields)))
    with (EmptyString +:+ ("{" +:+ (EmptyString +:+ join ", " (map item_text (kv :: fields)))
                             +:+ "}") +:+ EmptyString).
  - apply element_intro; [apply ws_nil| |apply ws_nil].
    apply value_object, items_members, ws_nil.
  - rewrite str_app_nil_r, !str_app_nil_l. unfold string_object. cbn [dumps].
    by rewrite map_map.
Qed.

Lemma error_payload_is_json msg : json_text (dumps (error_payload msg)).
Proof. apply (string_object_is_json ("error", msg) []). Qed.

Lemma database_error_is_json e : json_text (dumps (database_error_payload e)).
Proof. destruct e; apply error_payload_is_json. Qed.

Lemma ticket_error_is_json e : json_text (dumps (ticket_error_payload e)).
Proof. destruct e; apply error_payload_is_json. Qed.

Lemma no_results_is_json : json_text (dumps no_results_payload).
Proof.
  apply (string_object_is_json ("message", "Query executed, but no results to return.") []).
Qed.

Lemma rejection_is_json status body : json_text (dumps (rejection_payload status body)).
Proof.
  apply (string_object_is_json
           ("error", "Failed to create ticket. GitHub API responded with status "
                     +:+ str_of_Z status +:+ ".")
           [("details", body)]).
Qed.

Lemma success_is_json ticket_id url title :
  json_text (dumps (success_payload ticket_id (JStr url) (JStr title))).
Proof.
  apply (string_object_is_json
           ("status", "success")
           [ ("ticket_id", "GH-" +:+ py_str ticket_id);
             ("ticket_url", url);
             ("title", title);
             ("message", "Support ticket GH-" +:+ py_str ticket_id
                         +:+ " has been successfully created. A human will review it at: "
                         +:+ url) ]).
Qed.

End JsonAnswers.

(** What [query_database] returns is a JSON text of its own (an error or
    the "no results" message), or what pandas wrote for a frame of at most
    20 rows, or what pandas wrote for the first 20 rows of a longer frame
    followed by the truncation note. *)
Theorem query_answer_is_json_or_records
  (W : world) (sql_query : string) (tr : list event) (out : string) :
  fst (query_database W sql_query tr) = Ret out ->
  JsonText.json_text out
  \/ (exists df, len df <= 20 /\ to_json_records W df = Ret out)
  \/ (exists df records,
        20 < len df
        /\ to_json_records W (head 20 df) = Ret records
        /\ out = records +:+ truncation_note (len df - 20)).
Proof.
  unfold query_database.
  destruct (negb (is_query_safe sql_query));
    [intros [= <-]; left; apply JsonAnswers.error_payload_is_json|].
  destruct (negb (os_path_exists W DB_FILENAME));
    [intros [= <-]; left; apply JsonAnswers.error_payload_is_json|].
  run_monad.
  destruct (sqlite3_connect W DB_FILENAME) as [[]|e];
    [|intros [= <-]; left; apply JsonAnswers.database_error_is_json].
  destruct (cursor_execute W sql_query) as [cur|e];
    [|intros [= <-]; left; apply JsonAnswers.database_error_is_json].
  destruct (fetchall cur) as [rows|e];
    [|intros [= <-]; left; apply JsonAnswers.database_error_is_json].
  destruct (truthy (description cur));
    [|intros [= <-]; left; apply JsonAnswers.no_results_is_json].
  cbn zeta. fold (frame_of cur rows).
  destruct (20 <? len (frame_of cur rows)) eqn:Hlen.
  - destruct (to_json_records W (head 20 (frame_of cur rows))) as [records|e] eqn:Hjson;
      [|intros [= <-]; left; apply JsonAnswers.database_error_is_json].
    intros [= <-]. right. right. exists (frame_of cur rows), records.
    split; [by apply Z.ltb_lt|]. split; done.
  - destruct (to_json_records W (frame_of cur rows)) as [records|e] eqn:Hjson;
      [|intros [= <-]; left; apply JsonAnswers.database_error_is_json].
    intros [= <-]. right. left. exists (frame_of cur rows).
    split; [by apply Z.ltb_ge|done].
Qed.

(** The answer to a denied statement. *)
Lemma query_answer_is_json_or_records_witness :
  JsonText.json_text denied_answer
  \/ (exists df,
        len df <= 20
        /\ to_json_records (Samples.db_world false (Samples.rows_db 1)) df = Ret denied_answer)
  \/ (exists df records,
        20 < len df
        /\ to_json_records (Samples.db_world false (Samples.rows_db 1)) (head 20 df)
           = Ret records
        /\ denied_answer = records +:+ truncation_note (len df - 20)).
Proof.
  apply (query_answer_is_json_or_records
           (Samples.db_world false (Samples.rows_db 1)) "DROP TABLE movies" []).
  reflexivity.
Defined.

(** When the tracker's [html_url] is a string whenever it is there, every
    answer of [create_support_ticket] is a JSON text. *)
Theorem ticket_answer_is_json
  (W : world) (title description : string) (tr : list event) (out : string) :
  (forall url body headers r items u,
      requests_post W url body headers = Ret r ->
      response_json r = Ret (JObj items) ->
      lookup_item "html_url" items = Some u ->
      exists s, u = JStr s) ->
  fst (create_support_ticket W title description tr) = Ret out ->
  JsonText.json_text out.
Proof.
  intros Hurl. unfold create_support_ticket.
  destruct (st_secrets W !! "GITHUB_TOKEN") as [token|] eqn:Htoken;
    [destruct (st_secrets W !! "GITHUB_REPO") as [repo|] eqn:Hrepo|].
  - rewrite (create_support_ticket_configured _ _ _ _ _ _ Htoken Hrepo). cbn zeta.
    intros [= <-].
    destruct (requests_post W _ _ _) as [r|e] eqn:Hpost;
      [|apply JsonAnswers.ticket_error_is_json].
    destruct (status_code r =? 201); [|apply JsonAnswers.rejection_is_json].
    destruct (response_json r) as [v|e] eqn:Hjson;
      [|apply JsonAnswers.ticket_error_is_json].
    destruct v as [| | | | |items|items]; try apply JsonAnswers.error_payload_is_json.
    destruct (lookup_item "number" items) as [ticket_id|];
      [|apply JsonAnswers.error_payload_is_json].
    destruct (lookup_item "html_url" items) as [ticket_url|] eqn:Hu;
      [|apply JsonAnswers.error_payload_is_json].
    destruct (Hurl _ _ _ _ _ _ Hpost Hjson Hu) as [s ->].
    apply JsonAnswers.success_is_json.
  - rewrite create_support_ticket_unconfigured by (by right).
    destruct (secrets_toml W); [|done].
    intros [= <-]. apply JsonAnswers.error_payload_is_json.
  - rewrite create_support_ticket_unconfigured by (by left).
    destruct (secrets_toml W); [|done].
    intros [= <-]. apply JsonAnswers.error_payload_is_json.
Qed.

(** The answer for issue 42. *)
Lemma ticket_answer_is_json_witness :
  JsonText.json_text
    (dumps (JObj [ ("status", JStr "success");
                   ("ticket_id", JStr "GH-42");
                   ("ticket_url", JStr "http://x/42");
                   ("title", JStr "Bug");
                   ("message",
                    JStr ("Support ticket GH-42 has been successfully created. "
                          +:+ "A human will review it at: http://x/42")) ])).
Proof.
  apply (ticket_answer_is_json
           (Samples.ticket_world Samples.github_secrets (Ret Samples.created_42))
           "Bug" "desc" []).
  - intros url body headers r items u [= <-] [= <-] Hu.
    vm_compute in Hu. injection Hu as <-. by eexists.
  - reflexivity.
Defined.

(** ** The gate, exactly *)

Lemma lower_split s a b :
  lower s = a +:+ b -> exists sa sb, s = sa +:+ sb /\ lower sa = a /\ lower sb = b.
Proof.
  revert s. induction a as [|c a IH]; intros s H.
  - by exists EmptyString, s.
  - destruct s as [|d s]; [done|]. rewrite str_app_cons in H. cbn [lower] in H.
    injection H as Hc Hs. destruct (IH _ Hs) as (sa & sb & -> & Ha & Hb).
    exists (String d sa), sb. cbn [lower]. by rewrite Hc, Ha.
Qed.

(** [is_query_safe] denies a statement exactly when a denylisted keyword
    occurs in it, in any case of letters: the check is a substring match,
    so a keyword inside an identifier or a string literal is enough. *)
Theorem gate_denies_exactly_keyword_occurrences (sql_query : string) :
  is_query_safe sql_query = false
  <-> exists keyword,
        keyword ∈ BANNED_SQL_KEYWORDS /\ occurs_ignoring_case keyword sql_query.
Proof.
  split.
  - intros (keyword & Hin & Hc)%is_query_safe_false_iff.
    exists keyword. split; [done|].
    destruct (contains_split _ _ Hc) as (pre & post & Hsplit).
    destruct (lower_split _ _ _ Hsplit) as (sa & s' & -> & _ & Hs').
    destruct (lower_split _ _ _ Hs') as (mid & sb & -> & Hmid & _).
    exists sa, mid, sb. split; [done|].
    by rewrite Hmid, (banned_keywords_are_lower _ Hin).
  - intros (keyword & Hin & Hocc). by eapply occurrence_is_denied.
Qed.

(** A harmless SELECT is denied for the "drop" in a title. *)
Example gate_denies_a_title :
  is_query_safe "SELECT * FROM movies WHERE Title = 'The Dropout'" = false.
Proof. reflexivity. Qed.

(** ** An answer that [json.loads] rejects *)

(** When the model's first reply asks for a registered tool and
    [json.loads] raises on what the tool returns, the exception reaches the
    [except] of the turn: the error is shown, no model turn is appended,
    and the session keeps the user's prompt only. *)
Theorem undecodable_answer_ends_the_turn
  (W : world) (fuel : nat) (messages : list Turn) (prompt : string)
  (tr tr' : list event) (function_name : string) (args : list (string * json))
  (tool_function : list (string * json) -> M string) (out : string) (e : exn) :
  let request := map Hist messages ++ [Sent (MsgText prompt)] in
  generate_content W request = Ret (FunctionCall function_name args) ->
  tools W !! function_name = Some tool_function ->
  tool_function args
    (tr ++ [EvChatMessage "user" prompt; EvGenerate request;
            EvChatMessage "model" ("Running tool: `" +:+ function_name +:+ "`...")])
  = (Ret out, tr') ->
  json_loads W out = Raise e ->
  handle_prompt W (S fuel) messages prompt tr
  = (Ret (Some (messages ++ [{| role := "user"; parts := prompt |}])),
     tr' ++ [EvError ("An error occurred: " +:+ exn_str e)]).
Proof.
  intros request Hreply Htool Hrun Hloads. subst request.
  unfold handle_prompt. cbn zeta. rewrite all_but_last_snoc, last_item_snoc.
  unfold start_chat, send_message. cbn zeta.
  cbv [bind emit try_except lift ret]. cbn [parts]. rewrite Hreply.
  cbn [fst snd agent_loop].
  rewrite Htool. cbv [bind emit lift]. rewrite <- !(assoc_L (++)). cbn [app].
  by rewrite Hrun, Hloads.
Qed.

(** The model asks for 21 rows: the answer carries the note, and the
    stand-in for [json.loads] raises on it. *)
Lemma undecodable_answer_ends_the_turn_witness :
  handle_prompt Samples.long_result_world 5 [greeting] "Show me the rows" []
  = (Ret (Some [greeting; {| role := "user"; parts := "Show me the rows" |}]),
     [EvChatMessage "user" "Show me the rows";
      EvGenerate [Hist greeting; Sent (MsgText "Show me the rows")];
      EvChatMessage "model" "Running tool: `query_database`...";
      EvConnect DB_FILENAME; EvExecute "SELECT n FROM t"; EvClose;
      EvError "An error occurred: JSONDecodeError"]).
Proof.
  refine (undecodable_answer_ends_the_turn
            Samples.long_result_world 4 [greeting] "Show me the rows" []
            [EvChatMessage "user" "Show me the rows";
             EvGenerate [Hist greeting; Sent (MsgText "Show me the rows")];
             EvChatMessage "model" "Running tool: `query_database`...";
             EvConnect DB_FILENAME; EvExecute "SELECT n FROM t"; EvClose]
            "query_database" [("sql_query", JStr "SELECT n FROM t")]
            (call_query_database Samples.long_result_world)
            (Samples.first_20_records +:+ truncation_note 1)
            (OtherException "JSONDecodeError") _ _ _ _);
    vm_compute; reflexivity.
Defined.

(* ================================================================== *)
(** * Further properties of the program *)

(** ** The gate on composed statements *)

Lemma is_query_safe_existsb sql_query :
  is_query_safe sql_query
  = negb (existsb (fun keyword => contains keyword (lower sql_query)) BANNED_SQL_KEYWORDS).
Proof.
  unfold is_query_safe. generalize BANNED_SQL_KEYWORDS as ks.
  induction ks as [|k ks IH]; [done|]. cbn [first_banned existsb].
  destruct (contains k (lower sql_query)); [done|]. by rewrite IH.
Qed.

Lemma prefix_before_separator c keyword x y :
  has_char c keyword = false ->
  String.prefix keyword (x +:+ String c y) = String.prefix keyword x.
Proof.
  revert x. induction keyword as [|k keyword IH]; intros x Hc.
  - by destruct x.
  - cbn [has_char] in Hc. apply orb_false_iff in Hc as [Hk Hrest].
    destruct x as [|a x].
    + rewrite str_app_nil_l. cbn [String.prefix].
      destruct (ascii_dec k c) as [->|]; [|done].
      by rewrite Ascii.eqb_refl in Hk.
    + rewrite str_app_cons. cbn [String.prefix].
      destruct (ascii_dec k a); [by apply IH|done].
Qed.

(** A keyword cannot straddle a character it does not hold. *)
Lemma contains_around_separator c keyword x y :
  has_char c keyword = false ->
  contains keyword (x +:+ String c y) = contains keyword x || contains keyword y.
Proof.
  intros Hc. induction x as [|a x IH].
  - rewrite str_app_nil_l. cbn [contains].
    rewrite <- (str_app_nil_l (String c y)), (prefix_before_separator _ _ _ _ Hc).
    by rewrite orb_false_r.
  - rewrite str_app_cons. cbn [contains].
    rewrite <- str_app_cons, (prefix_before_separator _ _ _ _ Hc), IH.
    by rewrite orb_assoc.
Qed.

Lemma existsb_orb {A} (f g h : A -> bool) (l : list A) :
  Forall (fun a => f a = g a || h a) l ->
  existsb f l = existsb g l || existsb h l.
Proof.
  induction 1 as [|a l Ha _ IH]; [done|]. cbn [existsb]. rewrite Ha, IH.
  destruct (g a), (h a), (existsb g l), (existsb h l); done.
Qed.

(** Two parts of a statement joined by a character that is in no keyword
    (a space, a line feed, a bracket, a comma, a quote, a digit, ...) are
    checked independently of each other: the whole passes the gate exactly
    when both parts do. In particular the gate does not look at what kind
    of statement it is given. *)
Theorem gate_checks_parts_separately (c : ascii) (a b : string) :
  separates c = true ->
  is_query_safe (a +:+ String c b) = is_query_safe a && is_query_safe b.
Proof.
  intros Hsep. rewrite !is_query_safe_existsb, lower_app. cbn [lower].
  rewrite <- negb_orb. f_equal. apply existsb_orb.
  unfold separates in Hsep. rewrite forallb_forall in Hsep.
  apply Forall_forall. intros keyword Hin.
  apply contains_around_separator, negb_true_iff, Hsep.
  by apply list_elem_of_In.
Qed.

(** A SELECT that passes, behind a [REPLACE INTO] that passes. *)
Lemma gate_checks_parts_separately_witness :
  is_query_safe ("REPLACE INTO movies" +:+ String " " "SELECT 1, 2")
  = is_query_safe "REPLACE INTO movies" && is_query_safe "SELECT 1, 2".
Proof.
  apply (gate_checks_parts_separately " " "REPLACE INTO movies" "SELECT 1, 2").
  reflexivity.
Defined.

(** Wrapping a denied statement in more text never makes it pass. *)
Theorem denied_statement_stays_denied (pre sql_query post : string) :
  is_query_safe sql_query = false ->
  is_query_safe (pre +:+ sql_query +:+ post) = false.
Proof.
  intros (keyword & Hin & Hc)%is_query_safe_false_iff.
  apply is_query_safe_false_iff. exists keyword. split; [done|].
  destruct (contains_split _ _ Hc) as (l & r & Hsplit).
  rewrite !lower_app, Hsplit, <- !str_app_assoc, !str_app_assoc.
  rewrite <- (str_app_assoc (lower pre) l). apply contains_app.
Qed.

Lemma denied_statement_stays_denied_witness :
  is_query_safe ("SELECT 1; " +:+ "drop table movies" +:+ " -- tidy up") = false.
Proof.
  apply (denied_statement_stays_denied "SELECT 1; " "drop table movies" " -- tidy up").
  reflexivity.
Defined.

(** ** The connection of the query tool *)

Lemma open_connections_app tr evs :
  open_connections (tr ++ evs)
  = fold_left
      (fun n e =>
         match e with
         | EvConnect _ => S n
         | EvClose => Nat.pred n
         | _ => n
         end)
      evs (open_connections tr).
Proof. unfold open_connections. by rewrite fold_left_app. Qed.

(** After [query_database] returns, one more connection is open than before
    exactly when [sqlite3.connect] succeeded and [cur.execute] or
    [cur.fetchall] raised; in every other case (denied statement, missing
    file, failed connect, no result set, records written, pandas raising)
    as many are open as before. *)
Theorem connection_leak_is_characterised
  (W : world) (sql_query : string) (tr : list event) :
  open_connections (snd (query_database W sql_query tr))
  = (open_connections tr + if fails_after_connect W sql_query then 1 else 0)%nat.
Proof.
  unfold query_database, fails_after_connect. run_monad.
  destruct (is_query_safe sql_query); cbn [negb andb snd]; [|lia].
  destruct (os_path_exists W DB_FILENAME); cbn [negb andb snd]; [|lia].
  destruct (sqlite3_connect W DB_FILENAME) as [[]|e]; cbn [snd]; [|lia].
  destruct (cursor_execute W sql_query) as [cur|e]; cbn [snd];
    [|rewrite <- (assoc_L (++)), open_connections_app; cbn; lia].
  destruct (fetchall cur) as [rows|e]; cbn [snd];
    [|rewrite <- (assoc_L (++)), open_connections_app; cbn; lia].
  destruct (truthy (description cur)); run_monad;
    [|cbn [snd]; rewrite <- !(assoc_L (++)), open_connections_app; cbn; lia].
  cbn zeta.
  destruct (20 <? _);
    [destruct (to_json_records W (head 20 _))|destruct (to_json_records W _)];
    cbn [snd]; rewrite <- !(assoc_L (++)), open_connections_app; cbn; lia.
Qed.

(** ** The request of the ticket tool *)

(** A call of [create_support_ticket] issues at most one POST. With both
    secrets present it issues exactly one, whatever comes back: to the
    issues URL of the configured repository, with the title and the
    description as the body and the token as bearer; the tool sends nothing
    anywhere else and never tries again. *)
Theorem ticket_tool_posts_once
  (W : world) (title description : string) (tr : list event) :
  snd (create_support_ticket W title description tr)
  = tr ++ match st_secrets W !! "GITHUB_TOKEN", st_secrets W !! "GITHUB_REPO" with
          | Some token, Some repo =>
              [EvPost (issues_url repo)
                      (JObj [("title", JStr title); ("body", JStr description)])
                      [("Authorization", "Bearer " +:+ token);
                       ("Accept", "application/vnd.github.v3+json")]]
          | _, _ => []
          end.
Proof.
  unfold create_support_ticket.
  destruct (st_secrets W !! "GITHUB_TOKEN") as [token|] eqn:Htoken;
    [destruct (st_secrets W !! "GITHUB_REPO") as [repo|] eqn:Hrepo|].
  - by rewrite (create_support_ticket_configured _ _ _ _ _ _ Htoken Hrepo).
  - rewrite create_support_ticket_unconfigured by (by right).
    rewrite List.app_nil_r. by destruct (secrets_toml W).
  - rewrite create_support_ticket_unconfigured by (by left).
    rewrite List.app_nil_r. by destruct (secrets_toml W).
Qed.

(** When the tracker answers 201 but its body, though it decodes, is not
    an object holding both [number] and [html_url], the tool reports the
    "unexpected error" payload: the POST was sent and accepted, and the
    answer says the ticket could not be created. *)
Theorem accepted_ticket_can_be_reported_as_failed
  (W : world) (title description token repo : string) (r : response)
  (body : json) (tr : list event) :
  st_secrets W !! "GITHUB_TOKEN" = Some token ->
  st_secrets W !! "GITHUB_REPO" = Some repo ->
  requests_post W (issues_url repo) (request_data (JStr title) (JStr description))
                (request_headers token) = Ret r ->
  status_code r = 201 ->
  response_json r = Ret body ->
  (forall items number url,
      body = JObj items ->
      lookup_item "number" items = Some number ->
      lookup_item "html_url" items = Some url -> False) ->
  create_support_ticket W title description tr
  = (Ret (dumps (JObj [("error",
                        JStr "An unexpected error occurred while creating the ticket.")])),
     tr ++ [EvPost (issues_url repo) (request_data (JStr title) (JStr description))
                   (request_headers token)]).
Proof.
  intros Htoken Hrepo Hpost Hstatus Hjson Hbody. unfold create_support_ticket.
  rewrite (create_support_ticket_configured _ _ _ _ _ _ Htoken Hrepo).
  cbn zeta. rewrite Hpost, Hstatus, Hjson. cbn [Z.eqb Pos.eqb].
  destruct body as [| | | | |items|items]; try done.
  destruct (lookup_item "number" items) as [number|] eqn:Hn; [|done].
  destruct (lookup_item "html_url" items) as [url|] eqn:Hu; [|done].
  by destruct (Hbody _ _ _ eq_refl Hn Hu).
Qed.

(** The tracker creates the issue and answers with a body without
    [number]. *)
Lemma accepted_ticket_can_be_reported_as_failed_witness :
  create_support_ticket
    (Samples.ticket_world Samples.github_secrets (Ret MoreSamples.created_without_number))
    "Bug" "desc" []
  = (Ret (dumps (JObj [("error",
                        JStr "An unexpected error occurred while creating the ticket.")])),
     [] ++ [EvPost (issues_url "octo/demo") (request_data (JStr "Bug") (JStr "desc"))
                   (request_headers "t0ken")]).
Proof.
  refine (accepted_ticket_can_be_reported_as_failed
            (Samples.ticket_world Samples.github_secrets
                                  (Ret MoreSamples.created_without_number))
            "Bug" "desc" "t0ken" "octo/demo" MoreSamples.created_without_number
            (JObj [("id", JInt 7)]) [] eq_refl eq_refl eq_refl eq_refl eq_refl _).
  intros items number url [= <-] Hnumber. vm_compute in Hnumber. discriminate.
Defined.

(** ** The turn as a whole *)




(** ** A model that never answers in text *)

(** The loop has no bound of its own. While the model answers every
    request with a call of a tool that is not registered, the loop sends
    one corrective message after the other: for every number of iterations
    it has sent that many requests, each of them a corrective message, and
    is still not done. *)
Theorem loop_goes_on_while_the_model_asks
  (W : world) (fuel : nat) (chat : list chat_item)
  (function_name : string) (args : list (string * json)) (tr : list event) :
  (forall contents,
      exists name args',
        generate_content W contents = Ret (FunctionCall name args')
        /\ tools W !! name = None) ->
  tools W !! function_name = None ->
  exists evs,
    agent_loop W fuel chat (FunctionCall function_name args) tr = (Ret None, tr ++ evs)
    /\ length evs = fuel
    /\ Forall (fun e => is_corrective e = true) evs.
Proof.
  intros Hmodel. revert chat function_name args tr.
  induction fuel as [|fuel IH]; intros chat function_name args tr Htool.
  - exists []. rewrite List.app_nil_r. by repeat split.
  - cbn [agent_loop]. rewrite Htool. unfold send_message. cbn zeta.
    cbv [bind emit lift ret].
    destruct (Hmodel (chat ++ [Sent (unknown_tool_message function_name)]))
      as (name & args' & -> & Htool').
    cbn [fst snd].
    destruct (IH ((chat ++ [Sent (unknown_tool_message function_name)])
                    ++ [Reply (FunctionCall name args')])
                 name args'
                 (tr ++ [EvGenerate (chat ++ [Sent (unknown_tool_message function_name)])])
                 Htool')
      as (evs & -> & Hlen & Hall).
    exists (EvGenerate (chat ++ [Sent (unknown_tool_message function_name)]) :: evs).
    rewrite <- (assoc_L (++)). split; [done|]. split; [cbn; by rewrite Hlen|].
    constructor; [apply unknown_tool_message_is_corrective|done].
Qed.

Lemma loop_goes_on_while_the_model_asks_witness :
  exists evs,
    agent_loop MoreSamples.stubborn_world 3 [] (FunctionCall "get_weather" []) []
    = (Ret None, [] ++ evs)
    /\ length evs = 3%nat
    /\ Forall (fun e => is_corrective e = true) evs.
Proof.
  apply (loop_goes_on_while_the_model_asks
           MoreSamples.stubborn_world 3 [] "get_weather" [] []).
  - intros contents. exists "get_weather", []. split; reflexivity.
  - reflexivity.
Defined.

(** ** Calls the tools cannot take *)

Lemma malformed_query_call_raises W args tr :
  (forall sql_query, args <> [("sql_query", JStr sql_query)]) ->
  exists e, call_query_database W args tr = (Raise e, tr).
Proof.
  intros Hargs. unfold call_query_database, bind_kwargs. cbv [bind lift raise].
  destruct args as [|[k v] [|kv args]]; cbn; try by eexists.
  destruct (String.eqb k "sql_query") eqn:Hk; cbn; [|by eexists].
  apply String.eqb_eq in Hk as ->.
  destruct v; try by eexists. by destruct (Hargs s).
Qed.

(** The arguments of a function call are not validated. When the first
    reply of the model asks for [query_database] with anything but
    exactly one argument [sql_query] holding a string, the Python call
    raises before the tool's body runs: the database is not touched, the
    model gets no corrective message, and the turn ends with the error
    shown and the prompt left unanswered in the session. *)
Theorem malformed_query_call_ends_the_turn
  (W : world) (fuel : nat) (messages : list Turn) (prompt : string)
  (args : list (string * json)) (tr : list event) :
  generate_content W (map Hist messages ++ [Sent (MsgText prompt)])
  = Ret (FunctionCall "query_database" args) ->
  (forall sql_query, args <> [("sql_query", JStr sql_query)]) ->
  exists e,
    handle_prompt W (S fuel) messages prompt tr
    = (Ret (Some (messages ++ [{| role := "user"; parts := prompt |}])),
       tr ++ [EvChatMessage "user" prompt;
              EvGenerate (map Hist messages ++ [Sent (MsgText prompt)]);
              EvChatMessage "model" "Running tool: `query_database`...";
              EvError ("An error occurred: " +:+ exn_str e)]).
Proof.
  intros Hreply Hargs.
  unfold handle_prompt. cbn zeta. rewrite all_but_last_snoc, last_item_snoc.
  unfold start_chat, send_message. cbn zeta.
  cbv [bind emit try_except lift ret]. cbn [parts]. rewrite Hreply.
  cbn [fst snd agent_loop]. rewrite tools_lookup. cbn [bool_decide decide_rel].
  rewrite bool_decide_eq_true_2 by done.
  cbv [bind emit lift].
  match goal with
  | |- context [call_query_database W args ?tr0] =>
      destruct (malformed_query_call_raises W args tr0 Hargs) as [e ->]
  end.
  exists e. rewrite <- !(assoc_L (++)). reflexivity.
Qed.

(** The model names the argument [query]. *)
Lemma malformed_query_call_ends_the_turn_witness :
  exists e,
    handle_prompt MoreSamples.misnamed_argument_world 5 [greeting] "How many?" []
    = (Ret (Some ([greeting] ++ [{| role := "user"; parts := "How many?" |}])),
       [] ++ [EvChatMessage "user" "How many?";
              EvGenerate (map Hist [greeting] ++ [Sent (MsgText "How many?")]);
              EvChatMessage "model" "Running tool: `query_database`...";
              EvError ("An error occurred: " +:+ exn_str e)]).
Proof.
  apply (malformed_query_call_ends_the_turn
           MoreSamples.misnamed_argument_world 4 [greeting] "How many?"
           [("query", JStr "SELECT 1")] []).
  - vm_compute. reflexivity.
  - intros sql_query Hargs. discriminate.
Defined.

(** ** The dashboard *)

(** [get_db_aggregates] never raises and never gives half a result. Either
    both statements ran and gave a row: then it returns the first cell of
    each, having connected, executed the count, executed the sum and
    closed, in that order. Or it returns [(None, None)], without having
    closed anything, and without having touched the database at all when
    the file is absent. *)
Theorem aggregates_are_all_or_nothing (W : world) (tr : list event) :
  exists out evs,
    get_db_aggregates W tr = (Ret out, tr ++ evs)
    /\ ((exists c1 c2 r1 rs1 r2 rs2,
           cursor_execute W COUNT_QUERY = Ret c1
           /\ fetchall c1 = Ret ((fst out :: r1) :: rs1)
           /\ cursor_execute W VOTES_QUERY = Ret c2
           /\ fetchall c2 = Ret ((snd out :: r2) :: rs2)
           /\ evs = [EvConnect DB_FILENAME; EvExecute COUNT_QUERY;
                     EvExecute VOTES_QUERY; EvClose])
        \/ (out = (SqlNull, SqlNull)
            /\ Forall (fun e => e <> EvClose) evs
            /\ (os_path_exists W DB_FILENAME = false -> evs = []))).
Proof.
  unfold get_db_aggregates, scalar_query, fetchone, first_cell. run_monad.
  destruct (os_path_exists W DB_FILENAME); cbn [negb];
    [|exists (SqlNull, SqlNull), []; rewrite List.app_nil_r; split; [done|];
      right; by repeat split].
  destruct (sqlite3_connect W DB_FILENAME) as [[]|e];
    [|exists (SqlNull, SqlNull), []; rewrite List.app_nil_r; split; [done|];
      right; by repeat split].
  destruct (cursor_execute W COUNT_QUERY) as [c1|e] eqn:Hc1.
  2:{ exists (SqlNull, SqlNull), [EvConnect DB_FILENAME; EvExecute COUNT_QUERY].
      rewrite <- ?(assoc_L (++)). split; [done|]. right.
      split; [done|]. split; [by repeat constructor|done]. }
  destruct (fetchall c1) as [[|[|m r1] rs1]|e] eqn:Hf1;
    try (exists (SqlNull, SqlNull), [EvConnect DB_FILENAME; EvExecute COUNT_QUERY];
         rewrite <- ?(assoc_L (++)); split; [done|]; right;
         split; [done|]; split; [by repeat constructor|done]).
  destruct (cursor_execute W VOTES_QUERY) as [c2|e] eqn:Hc2.
  2:{ exists (SqlNull, SqlNull),
        [EvConnect DB_FILENAME; EvExecute COUNT_QUERY; EvExecute VOTES_QUERY].
      rewrite <- ?(assoc_L (++)). split; [done|]. right.
      split; [done|]. split; [by repeat constructor|done]. }
  destruct (fetchall c2) as [[|[|v r2] rs2]|e] eqn:Hf2;
    try (exists (SqlNull, SqlNull),
           [EvConnect DB_FILENAME; EvExecute COUNT_QUERY; EvExecute VOTES_QUERY];
         rewrite <- ?(assoc_L (++)); split; [done|]; right;
         split; [done|]; split; [by repeat constructor|done]).
  exists (m, v),
    [EvConnect DB_FILENAME; EvExecute COUNT_QUERY; EvExecute VOTES_QUERY; EvClose].
  rewrite <- ?(assoc_L (++)). split; [done|]. left.
  exists c1, c2, r1, rs1, r2, rs2. by repeat split.
Qed.






(** ** The whole run of the script *)

Lemma never_raises_bind {A B} (m : M A) (k : A -> M B) :
  never_raises m -> (forall a, never_raises (k a)) -> never_raises (bind m k).
Proof.
  intros Hm Hk tr. unfold bind. destruct (Hm tr) as [a Ha].
  destruct (m tr) as [[a'|e] tr']; cbn in Ha; [|done]. apply Hk.
Qed.

Lemma emit_never_raises e : never_raises (emit e).
Proof. intros tr. by exists tt. Qed.

(** A computation that never raises and only appends events. *)
Lemma emits_returns {A} P (m : M A) (Q : A -> Prop) tr :
  emits P m Q -> never_raises m ->
  exists a evs, m tr = (Ret a, tr ++ evs) /\ Forall P evs /\ Q a.
Proof.
  intros Hm Hr. destruct (Hm tr) as (evs & Htr & HP & HQ). destruct (Hr tr) as [a Ha].
  exists a, evs. destruct (m tr) as [r tr']. cbn in *. subst. auto.
Qed.

Lemma get_db_aggregates_run W tr :
  exists out evs,
    get_db_aggregates W tr = (Ret out, tr ++ evs)
    /\ Forall tool_event evs
    /\ (os_path_exists W DB_FILENAME = false -> out = (SqlNull, SqlNull) /\ evs = []).
Proof.
  destruct (os_path_exists W DB_FILENAME) eqn:Hfile.
  - destruct (emits_returns tool_event (get_db_aggregates W) (fun _ => True) tr)
      as (out & evs & Hrun & Hevs & _).
    + unfold get_db_aggregates, scalar_query, connect, execute, close.
      rewrite Hfile. cbn [negb]. emits_any.
    + unfold get_db_aggregates. rewrite Hfile. cbn [negb].
      apply try_except_never_raises. intros e. apply ret_never_raises.
    + exists out, evs. by repeat split.
  - exists (SqlNull, SqlNull), []. unfold get_db_aggregates. rewrite Hfile.
    rewrite List.app_nil_r. by repeat split.
Qed.

(** The cached call: the value, the cache afterwards, and the events. *)
Lemma cached_aggregates_run W cache tr :
  exists out evs,
    cache_data cache (get_db_aggregates W) tr = (Ret (out, Some out), tr ++ evs)
    /\ Forall tool_event evs
    /\ (forall agg, cache = Some agg -> out = agg /\ evs = [])
    /\ (cache = None -> os_path_exists W DB_FILENAME = false ->
        out = (SqlNull, SqlNull) /\ evs = []).
Proof.
  destruct cache as [agg|]; cbn [cache_data].
  - exists agg, []. rewrite List.app_nil_r.
    split; [done|]. split; [constructor|]. split; [by intros ? [= <-]|done].
  - destruct (get_db_aggregates_run W tr) as (out & evs & Hrun & Hevs & Hmissing).
    exists out, evs. cbv [bind ret]. rewrite Hrun.
    split; [done|]. split; [done|]. split; [done|]. intros _. exact Hmissing.
Qed.

Lemma handle_prompt_never_raises W fuel messages prompt :
  never_raises (handle_prompt W fuel messages prompt).
Proof.
  unfold handle_prompt. cbn zeta.
  apply never_raises_bind; [apply emit_never_raises|]. intros _.
  apply try_except_never_raises. intros e.
  apply never_raises_bind; [apply emit_never_raises|]. intros _.
  apply ret_never_raises.
Qed.

Lemma run_script_run W fuel session prompt tr :
  exists r evs,
    run_script W fuel session prompt tr = (Ret r, tr ++ evs)
    /\ (prompt = None ->
        r = Some (init_session session)
        /\ Forall (fun e => is_database_event e = false) evs).
Proof.
  unfold run_script. cbn zeta. unfold bind at 1. rewrite display_run.
  destruct prompt as [prompt|].
  - destruct (emits_returns _ _ _
                (tr ++ map (fun msg => EvChatMessage (role msg) (parts msg))
                           (displayed (init_session session)))
                (handle_prompt_emits W fuel (init_session session) prompt)
                (handle_prompt_never_raises W fuel (init_session session) prompt))
      as (r & evs & -> & _ & _).
    eexists r, (_ ++ evs). by rewrite (assoc_L (++)).
  - eexists _, _. split; [done|]. intros _. split; [done|].
    apply Forall_forall. by intros e (msg & -> & _)%list_elem_of_fmap.
Qed.

(** The agent initialisation: it goes on when the key is found, and
    shows one error otherwise. *)
Lemma initialize_agent_run W tr :
  match st_secrets W !! "GOOGLE_API_KEY" with
  | Some _ => initialize_agent W tr = (Ret true, tr)
  | None =>
      exists e,
        initialize_agent W tr
        = (Ret false,
           tr ++ [EvError ("Error initializing generative model: " +:+ exn_str e)])
  end.
Proof.
  unfold initialize_agent, secret, st_secrets. cbv [bind ret lift try_except raise emit].
  destruct (secrets_toml W) as [secrets|e].
  - destruct (secrets !! "GOOGLE_API_KEY"); [done|by eexists].
  - rewrite lookup_empty. by eexists.
Qed.

(** The run once the aggregates are known: the sidebar, the
    initialisation, then the chat. *)
Lemma run_app_after_sidebar W format_real fuel state prompt tr :
  exists out evs0 state' last evs,
    cache_data (aggregates state) (get_db_aggregates W) tr
    = (Ret (out, Some out), tr ++ evs0)
    /\ run_app W format_real fuel state prompt tr
       = (Ret (fst (sidebar_metrics format_real (fst out) (snd out)), state', last),
          (tr ++ evs0) ++ evs)
    /\ aggregates state' = Some out
    /\ (prompt = None -> Forall (fun e => is_database_event e = false) evs)
    /\ (st_secrets W !! "GOOGLE_API_KEY" = None ->
        session state' = session state
        /\ (last = Stopped \/ exists e, last = Crashed e)
        /\ Forall (fun e => is_generate e = false /\ is_chat_message e = false) evs).
Proof.
  destruct (cached_aggregates_run W (aggregates state) tr)
    as (out & evs0 & Hcached & _).
  exists out, evs0. unfold run_app. unfold bind at 1. rewrite Hcached. cbn [fst snd].
  destruct (sidebar_metrics format_real (fst out) (snd out)) as [shown [[]|e]];
    cbn [fst snd].
  2:{ eexists _, _, []. rewrite List.app_nil_r. split; [done|]. split; [done|].
      split; [done|]. split; [by constructor|]. intros _.
      split; [done|]. split; [right; by eexists|constructor]. }
  pose proof (initialize_agent_run W (tr ++ evs0)) as Hinit.
  destruct (st_secrets W !! "GOOGLE_API_KEY") as [key|] eqn:Hkey.
  - unfold bind at 1. rewrite Hinit. cbv [bind ret].
    destruct (run_script_run W fuel (session state) prompt (tr ++ evs0))
      as (r & evs & -> & Hnone).
    destruct r as [messages|]; eexists _, _, evs;
      (split; [done|]); (split; [done|]); (split; [done|]);
      (split; [intros Hp; by apply Hnone|done]).
  - destruct Hinit as [e Hinit]. unfold bind at 1. rewrite Hinit. cbv [ret].
    eexists _, _, [_]. split; [done|]. split; [done|]. split; [done|].
    split; [intros _; by repeat constructor|]. intros _.
    split; [done|]. split; [by left|by repeat constructor].
Qed.

(** The aggregates are computed once. When the cache of
    [get_db_aggregates] holds a value, a run shows the metrics of that
    value, keeps it, and its sidebar does not touch the database: without a
    prompt the whole run connects to nothing and executes nothing. *)
Theorem dashboard_is_computed_once
  (W : world) (format_real : string -> string) (fuel : nat) (state : app_state)
  (prompt : option string) (tr : list event) (agg : sql_value * sql_value) :
  aggregates state = Some agg ->
  exists state' last evs,
    run_app W format_real fuel state prompt tr
    = (Ret (fst (sidebar_metrics format_real (fst agg) (snd agg)), state', last),
       tr ++ evs)
    /\ aggregates state' = Some agg
    /\ (prompt = None -> Forall (fun e => is_database_event e = false) evs).
Proof.
  intros Hagg.
  destruct (run_app_after_sidebar W format_real fuel state prompt tr)
    as (out & evs0 & state' & last & evs & Hcached & Hrun & Hkept & Hnone & _).
  rewrite Hagg in Hcached. cbv [cache_data ret] in Hcached.
  assert (out = agg) as -> by congruence.
  assert (evs0 = []) as ->.
  { apply (app_inv_head tr). rewrite List.app_nil_r. congruence. }
  rewrite List.app_nil_r in Hrun. by exists state', last, evs.
Qed.

(** A run after one that counted the movies. *)
Lemma dashboard_is_computed_once_witness :
  exists state' last evs,
    run_app (MoreSamples.movies_world true) MoreSamples.no_reals 5
            {| aggregates := Some (SqlInt 9827, SqlInt 13653592); session := None |}
            None []
    = (Ret (fst (sidebar_metrics MoreSamples.no_reals
                                 (fst (SqlInt 9827, SqlInt 13653592))
                                 (snd (SqlInt 9827, SqlInt 13653592))),
            state', last),
       [] ++ evs)
    /\ aggregates state' = Some (SqlInt 9827, SqlInt 13653592)
    /\ Forall (fun e => is_database_event e = false) evs.
Proof.
  destruct (dashboard_is_computed_once
           (MoreSamples.movies_world true) MoreSamples.no_reals 5
           {| aggregates := Some (SqlInt 9827, SqlInt 13653592); session := None |}
           None [] (SqlInt 9827, SqlInt 13653592) eq_refl)
    as (state' & last & evs & Hrun & Hkept & Hquiet).
  exists state', last, evs. split; [exact Hrun|]. split; [exact Hkept|].
  apply Hquiet. reflexivity.
Defined.

(** A failure is cached like a value. When the database file is absent
    in a run whose cache is empty, that run shows no metric and caches
    [(None, None)]; every later run from a state with that cache shows no
    metric either, in whatever world it runs: also once the file is there. *)
Theorem missing_database_hides_the_dashboard
  (W : world) (format_real : string -> string) (fuel : nat) (state : app_state)
  (prompt : option string) (tr : list event) :
  aggregates state = None ->
  os_path_exists W DB_FILENAME = false ->
  exists state1 last1 tr1,
    run_app W format_real fuel state prompt tr = (Ret ([], state1, last1), tr1)
    /\ aggregates state1 = Some (SqlNull, SqlNull)
    /\ forall W' format_real' fuel' state2 prompt' tr',
         aggregates state2 = aggregates state1 ->
         exists state3 last3 tr3,
           run_app W' format_real' fuel' state2 prompt' tr'
           = (Ret ([], state3, last3), tr3).
Proof.
  intros Hnone Hfile.
  destruct (run_app_after_sidebar W format_real fuel state prompt tr)
    as (out & evs0 & state1 & last1 & evs & Hcached & Hrun & Hkept & _).
  destruct (cached_aggregates_run W (aggregates state) tr)
    as (out' & evs0' & Hcached' & _ & _ & Hmissing).
  rewrite Hcached in Hcached'.
  assert (out = out') as -> by congruence.
  destruct (Hmissing Hnone Hfile) as [-> _].
  exists state1, last1, ((tr ++ evs0) ++ evs). split; [exact Hrun|]. split; [done|].
  intros W' format_real' fuel' state2 prompt' tr' Hsame.
  destruct (run_app_after_sidebar W' format_real' fuel' state2 prompt' tr')
    as (out2 & evs2 & state3 & last3 & evs3 & Hcached2 & Hrun2 & _).
  rewrite Hsame, Hkept in Hcached2. cbv [cache_data ret] in Hcached2.
  assert (out2 = (SqlNull, SqlNull)) as -> by congruence.
  by exists state3, last3, ((tr' ++ evs2) ++ evs3).
Qed.

(** The first run of the app before the loading script was run. *)
Lemma missing_database_hides_the_dashboard_witness :
  exists state1 last1 tr1,
    run_app (MoreSamples.movies_world false) MoreSamples.no_reals 5 MoreSamples.fresh
            None []
    = (Ret ([], state1, last1), tr1)
    /\ aggregates state1 = Some (SqlNull, SqlNull)
    /\ forall W' format_real' fuel' state2 prompt' tr',
         aggregates state2 = aggregates state1 ->
         exists state3 last3 tr3,
           run_app W' format_real' fuel' state2 prompt' tr'
           = (Ret ([], state3, last3), tr3).
Proof.
  apply (missing_database_hides_the_dashboard
           (MoreSamples.movies_world false) MoreSamples.no_reals 5 MoreSamples.fresh
           None []).
  - reflexivity.
  - reflexivity.
Defined.

(** Without a [GOOGLE_API_KEY] in the secrets the run ends at the agent
    initialisation ([st.stop()]), or earlier in the sidebar: no chat
    message is displayed, no request goes to the model, whatever the
    prompt, and the session history is left as it was (not even created). *)
Theorem missing_api_key_stops_the_run
  (W : world) (format_real : string -> string) (fuel : nat) (state : app_state)
  (prompt : option string) (tr : list event) :
  st_secrets W !! "GOOGLE_API_KEY" = None ->
  exists shown state' last evs,
    run_app W format_real fuel state prompt tr = (Ret (shown, state', last), tr ++ evs)
    /\ session state' = session state
    /\ (last = Stopped \/ exists e, last = Crashed e)
    /\ Forall (fun e => is_generate e = false /\ is_chat_message e = false) evs.
Proof.
  intros Hkey.
  destruct (run_app_after_sidebar W format_real fuel state prompt tr)
    as (out & evs0 & state' & last & evs & Hcached & Hrun & _ & _ & Hstop).
  destruct (Hstop Hkey) as (Hsession & Hlast & Hevs).
  destruct (cached_aggregates_run W (aggregates state) tr)
    as (out' & evs0' & Hcached' & Htools & _).
  rewrite Hcached in Hcached'.
  assert (evs0 = evs0') as <-.
  { apply (app_inv_head tr). congruence. }
  eexists _, state', last, (evs0 ++ evs). rewrite (assoc_L (++)).
  split; [exact Hrun|]. split; [done|]. split; [done|].
  apply Forall_app. split; [|done].
  eapply Forall_impl; [exact Htools|]. by intros [].
Qed.

Lemma missing_api_key_stops_the_run_witness :
  exists shown state' last evs,
    run_app (MoreSamples.movies_world true) MoreSamples.no_reals 5 MoreSamples.fresh
            (Some "How many movies are there?") []
    = (Ret (shown, state', last), [] ++ evs)
    /\ session state' = session MoreSamples.fresh
    /\ (last = Stopped \/ exists e, last = Crashed e)
    /\ Forall (fun e => is_generate e = false /\ is_chat_message e = false) evs.
Proof.
  apply (missing_api_key_stops_the_run
           (MoreSamples.movies_world true) MoreSamples.no_reals 5 MoreSamples.fresh
           (Some "How many movies are there?") []).
  vm_compute. reflexivity.
Defined.

(** ** What a run may do to the outside *)

Lemma query_database_permitted W sql_query :
  emits (permitted W) (query_database W sql_query) (fun _ => True).
Proof.
  unfold query_database, connect, execute, close, to_json.
  destruct (is_query_safe sql_query) eqn:Hsafe; cbn [negb]; emits_any.
Qed.

Lemma create_support_ticket_permitted W title description :
  emits (permitted W) (create_support_ticket_any W title description) (fun _ => True).
Proof.
  intros tr.
  destruct (st_secrets W !! "GITHUB_TOKEN") as [token|] eqn:Htoken;
    [destruct (st_secrets W !! "GITHUB_REPO") as [repo|] eqn:Hrepo|].
  - rewrite (create_support_ticket_configured _ _ _ _ _ _ Htoken Hrepo). cbn zeta.
    eexists [_]. split; [done|]. split; [|done].
    constructor; [|constructor]. by exists token, repo.
  - rewrite create_support_ticket_unconfigured by (by right).
    exists []. rewrite List.app_nil_r. by destruct (secrets_toml W).
  - rewrite create_support_ticket_unconfigured by (by left).
    exists []. rewrite List.app_nil_r. by destruct (secrets_toml W).
Qed.

Lemma registered_tool_permitted W function_name tool_function args :
  tools W !! function_name = Some tool_function ->
  emits (permitted W) (tool_function args) (fun _ => True).
Proof.
  rewrite tools_lookup. repeat case_bool_decide; intros [= <-].
  - unfold call_query_database.
    eapply emits_bind with (Q := fun _ => True); [by apply emits_lift|].
    intros values _.
    repeat match goal with
           | |- emits _ (match ?x with _ => _ end) _ => destruct x
           end; try apply emits_raise.
    apply query_database_permitted.
  - unfold call_create_support_ticket.
    eapply emits_bind with (Q := fun _ => True); [by apply emits_lift|].
    intros values _.
    repeat match goal with
           | |- emits _ (match ?x with _ => _ end) _ => destruct x
           end; try apply emits_raise.
    apply create_support_ticket_permitted.
Qed.

Lemma agent_loop_permitted W fuel :
  forall chat response_part,
    emits (permitted W) (agent_loop W fuel chat response_part) (fun _ => True).
Proof.
  induction fuel as [|fuel IH]; intros chat [function_name args|t];
    cbn [agent_loop]; try by apply emits_ret.
  unfold send_message.
  destruct (tools W !! function_name) as [tool_function|] eqn:Htool.
  - eapply emits_bind with (Q := fun _ => True); [by apply emits_emit|].
    intros _ _. eapply emits_bind with (Q := fun _ => True);
      [by eapply registered_tool_permitted|].
    intros function_result _.
    eapply emits_bind with (Q := fun _ => True); [by apply emits_lift|].
    intros content _.
    eapply emits_bind with (Q := fun _ => True); [emits_any|].
    intros r _. apply IH.
  - eapply emits_bind with (Q := fun _ => True); [emits_any|].
    intros r _. apply IH.
Qed.

Lemma run_script_permitted W fuel session prompt :
  emits (permitted W) (run_script W fuel session prompt) (fun _ => True).
Proof.
  unfold run_script. cbn zeta.
  eapply emits_bind with (Q := fun _ => True).
  - intros tr. rewrite display_run. eexists. split; [done|]. split; [|done].
    apply Forall_forall. by intros e (msg & -> & _)%list_elem_of_fmap.
  - intros _ _. destruct prompt as [prompt|]; [|by apply emits_ret].
    unfold handle_prompt, send_message. cbn zeta.
    eapply emits_bind with (Q := fun _ => True); [by apply emits_emit|].
    intros _ _. apply emits_try_except; [|intros e; emits_any].
    eapply emits_bind with (Q := fun _ => True); [by apply emits_lift|].
    intros new_prompt _.
    eapply emits_bind with (Q := fun _ => True); [emits_any|].
    intros r _.
    eapply emits_bind with (Q := fun _ => True); [apply agent_loop_permitted|].
    intros [[chat response_part]|] _; emits_any.
Qed.

Lemma get_db_aggregates_permitted W :
  emits (permitted W) (get_db_aggregates W) (fun _ => True).
Proof.
  unfold get_db_aggregates, scalar_query, connect, execute, close. emits_any.
Qed.

(** Whatever the model replies and however many tools it asks for, a run
    of the app connects to no file but the database, executes no statement
    that the gate denies (its own two aggregate queries pass it), and posts
    nowhere but to the issues of the configured repository, with the
    configured token. *)
Theorem run_does_only_what_is_permitted
  (W : world) (format_real : string -> string) (fuel : nat) (state : app_state)
  (prompt : option string) (tr : list event) :
  exists evs,
    snd (run_app W format_real fuel state prompt tr) = tr ++ evs
    /\ Forall (permitted W) evs.
Proof.
  assert (emits (permitted W) (run_app W format_real fuel state prompt) (fun _ => True))
    as Hrun.
  { unfold run_app, cache_data, initialize_agent, secret.
    eapply emits_bind with (Q := fun _ => True).
    { destruct (aggregates state); [by apply emits_ret|].
      eapply emits_bind with (Q := fun _ => True);
        [apply get_db_aggregates_permitted|by intros; apply emits_ret]. }
    intros cached _. cbn zeta.
    destruct (snd (sidebar_metrics _ _ _)); [|by apply emits_ret].
    eapply emits_bind with (Q := fun _ => True); [emits_any|].
    intros [] _; [|by apply emits_ret].
    eapply emits_bind with (Q := fun _ => True); [apply run_script_permitted|].
    intros [messages|] _; by apply emits_ret. }
  destruct (Hrun tr) as (evs & Htr & Hevs & _). by exists evs.
Qed.

(** ** The loading script *)

(** Which output of the list an output is. *)
Ltac pick_output H :=
  repeat match type of H with
         | _ ∨ _ => destruct H as [H|H]; try discriminate H
         | False => destruct H
         end.

(** The script replaces the table only once the whole dataset is in
    memory and the connection is there: what it writes is the frame it
    loaded, into the table and the file the app reads. When the download
    fails nothing touches the database, so a table written earlier is left
    as it was. The connection is closed exactly when the script reaches its
    end: a failing [to_sql] leaves it to the exit of the process. *)
Theorem loader_writes_what_it_loaded (S : Loader.services) :
  let run := Loader.main S in
  (forall table df,
      Loader.ToSql table df ∈ snd run ->
      table = TABLE_NAME
      /\ Loader.load_frame S Loader.dataset_name Loader.data_file = Ret df
      /\ Loader.Connected DB_FILENAME ∈ snd run)
  /\ (forall e,
        Loader.load_frame S Loader.dataset_name Loader.data_file = Raise e ->
        fst run = Raise e
        /\ Forall (fun o => Loader.touches_database o = false) (snd run))
  /\ (Loader.Closed ∈ snd run <-> fst run = Ret tt).
Proof.
  intros run. subst run. unfold Loader.main.
  destruct (Loader.load_frame S Loader.dataset_name Loader.data_file) as [df|e0].
  2:{ cbn [fst snd]. split; [|split].
      - intros table df Hin. by apply list_elem_of_singleton in Hin.
      - intros e [= <-]. split; [done|]. by repeat constructor.
      - split; [|done]. intros Hin. by apply list_elem_of_singleton in Hin. }
  destruct (Loader.connect_db S Loader.db_filename) as [[]|e1];
    [destruct (Loader.to_sql_replace S Loader.table_name df) as [[]|e2]|];
    cbn [fst snd app]; (split; [|split; [done|]]);
    try (intros table df' Hin; set_unfold in Hin; pick_output Hin;
         [injection Hin as -> ->; split; [done|]; split; [done|];
          do 7 apply list_elem_of_further; apply list_elem_of_here]);
    try (by intros table df' Hin; set_unfold in Hin; pick_output Hin);
    try (split; [|done]; intros Hin; set_unfold in Hin; by pick_output Hin).
  split; [done|]. intros _. do 9 apply list_elem_of_further. apply list_elem_of_here.
Qed.
